(** * The verification-state engine of oxidize-pdf's ISO compliance scripts

    A shallow embedding of
    - [scripts/create_initial_status.py]      (Ledger initialisation),
    - [scripts/update_verification_status.py] (the Status Updater),
    - [scripts/generate_compliance_report.py] (recent-activity table),
    - [tools/master_compliance_analyzer.py]   (the Evidence Scanner),
    followed by the properties of these programs.

    Conventions of the embedding.
    - A Python [dict] loaded from / dumped to a TOML file is a [gmap] from
      [string] keys to tables; the three table shapes of the status file
      (metadata, one requirement's status, statistics) are records.
    - [toml.dump] followed by [toml.load] is taken to give back the dictionary
      that was written: the file content is the dictionary itself.
    - Python [int] is [Z] or [nat]; Python [float] is idealised as an exact
      rational ([Q]); [round(x, n)] is rounding half to even at [n] decimals.
    - [sys.exit], uncaught exceptions and normal return are the three
      constructors of [Outcome]; [datetime.now()] readings are parameters. *)

From Stdlib Require Import ZArith QArith Qround Qabs Lqa String Ascii List.
From Stdlib Require Import Sorted.
From stdpp Require Import gmap strings list fin_maps.

Close Scope Q_scope.
Open Scope string_scope.

(** ** Python primitives used by the scripts *)

Module Py.

(** The double quote character, and the backslash. *)
Definition dquote : string := String (ascii_of_nat 34) EmptyString.
Definition backslash : string := String (ascii_of_nat 92) EmptyString.

(** Truth value of a [str]: only the empty string is falsy. *)
Definition truthy (s : string) : bool :=
  match s with
  | EmptyString => false
  | String _ _ => true
  end.

(** [s.startswith(pre)]. *)
Definition startswith (s pre : string) : bool := String.prefix pre s.

(** [sub in s]: some suffix of [s] starts with [sub]. *)
Fixpoint contains (sub s : string) : bool :=
  String.prefix sub s ||
  match s with
  | EmptyString => false
  | String _ s' => contains sub s'
  end.

(** [s.count(sub)]: the number of non-overlapping occurrences, scanning
    from the left.  [skip] is the number of characters still covered by
    the occurrence found last.  For the empty [sub] Python counts
    [len(s) + 1] occurrences, as this does. *)
Fixpoint count_from (skip : nat) (sub s : string) : nat :=
  match skip with
  | S k =>
      match s with
      | EmptyString => 0
      | String _ s' => count_from k sub s'
      end
  | O =>
      if String.prefix sub s then
        S (match s with
           | EmptyString => 0
           | String _ s' => count_from (Nat.pred (String.length sub)) sub s'
           end)
      else
        match s with
        | EmptyString => 0
        | String _ s' => count_from 0 sub s'
        end
  end.

Definition count (s sub : string) : nat := count_from 0 sub s.

(** [s.replace(old, new)] for a non-empty [old]. *)
Fixpoint replace_from (skip : nat) (old new s : string) : string :=
  match s with
  | EmptyString => EmptyString
  | String c s' =>
      match skip with
      | S k => replace_from k old new s'
      | O =>
          if String.prefix old s
          then new ++ replace_from (Nat.pred (String.length old)) old new s'
          else String c (replace_from 0 old new s')
      end
  end.

Definition replace (s old new : string) : string := replace_from 0 old new s.

(** [s[:n]]. *)
Definition slice_to (n : nat) (s : string) : string := String.substring 0 n s.

(** [sorted(l)] / [l.sort()] with the order [le]: a stable sort.  The
    element [x] is put in front of the first element it is [le] to, so
    elements that compare equal keep their order. *)
Fixpoint insert_sorted {A} (le : A → A → bool) (x : A) (l : list A) : list A :=
  match l with
  | [] => [x]
  | y :: l' => if le x y then x :: y :: l' else y :: insert_sorted le x l'
  end.

Definition sorted {A} (le : A → A → bool) (l : list A) : list A :=
  foldr (insert_sorted le) [] l.

(** Rounding of a rational to the nearest integer, ties to even. *)
Definition round_half_even (y : Q) : Z :=
  let f := Qfloor y in
  match Qcompare (y - inject_Z f) (1 # 2) with
  | Lt => f
  | Gt => (f + 1)%Z
  | Eq => if Z.even f then f else (f + 1)%Z
  end.

(** [round(x, ndigits)]. *)
Definition round (x : Q) (ndigits : nat) : Q :=
  let s := (10 ^ Z.of_nat ndigits)%Z in
  Qmake (round_half_even (x * inject_Z s)) (Z.to_pos s).

End Py.

(** ** Outcomes of a call: normal return, [sys.exit(code)], or an exception *)

Inductive exn : Type :=
| KeyError (key : string)
| TypeError.

Inductive Outcome (A : Type) : Type :=
| Return (a : A)
| Exit (code : Z)
| Raise (e : exn).
Arguments Return {A} a.
Arguments Exit {A} code.
Arguments Raise {A} e.

(** The exit status of the interpreter when a script's [main] ends with the
    given outcome: 0 on normal return, the argument of [sys.exit], and 1
    after an uncaught exception. *)
Definition exit_status {A} (o : Outcome A) : Z :=
  match o with
  | Return _ => 0
  | Exit code => code
  | Raise _ => 1
  end.

(** ** The status file (the Ledger) *)

(** One requirement's table, [status_data[status_key]]. *)
Record Entry : Type := {
  level : Z;
  implementation : string;
  test_file : string;
  verified : bool;
  last_checked : string;
  notes : string
}.

(** [status_data['metadata']]. *)
Record Metadata : Type := {
  last_updated : string;
  matrix_version : string;
  total_requirements : nat;
  note : string;
  warning : string
}.

(** [status_data['statistics']]. *)
Record Statistics : Type := {
  level_0_count : nat;
  level_1_count : nat;
  level_2_count : nat;
  level_3_count : nat;
  level_4_count : nat;
  average_level : Q;
  compliance_percentage : Q;
  last_calculated : string
}.

(** A top-level table of the status file. *)
Inductive Value : Type :=
| VMetadata (m : Metadata)
| VEntry (e : Entry)
| VStatistics (s : Statistics).

(** The dictionary [status_data]. *)
Abbreviation StatusData := (gmap string Value).

(** The metadata table with a new [last_updated]. *)
Definition touch (now : string) (m : Metadata) : Metadata :=
  {| last_updated := now;
     matrix_version := matrix_version m;
     total_requirements := total_requirements m;
     note := note m;
     warning := warning m |}.

(** ** scripts/update_verification_status.py *)

Module UpdateStatus.

(** What the script prints on standard output ([print]); the text of a
    message is not modelled, its kind and arguments are. *)
Inductive Message : Type :=
| MsgUpdating (req_id : string) (level : Z)
| ErrNoStatusFile
| ErrInvalidLevel (level : Z)
| ErrNotFound (req_id : string)
| MsgUpdated (req_id : string) (level : Z)
| MsgMatchingKeys (req_id : string) (keys : list string)
| MsgShowNotFound (req_id status_key : string) (first_keys : list string)
| MsgShowEntry (req_id : string) (e : Entry)
| MsgShowStatistics (s : Statistics)
| MsgUsage.

(** The part of the world the script touches: the file [STATUS_FILE]
    ([None] when it does not exist) and standard output. *)
Record World : Type := {
  STATUS_FILE : option StatusData;
  stdout : list Message
}.

(** The three readings of [datetime.now().isoformat()] that end up in the
    stored data during one update. *)
Record Clock : Type := {
  now_checked : string;
  now_updated : string;
  now_calculated : string
}.

(** Computations of the script: state passing with early termination. *)
Definition M (A : Type) : Type := World → Outcome A * World.

Definition ret {A} (a : A) : M A := λ w, (Return a, w).

Definition bind {A B} (c : M A) (k : A → M B) : M B :=
  λ w, match c w with
       | (Return a, w') => k a w'
       | (Exit code, w') => (Exit code, w')
       | (Raise e, w') => (Raise e, w')
       end.

Definition lift {A} (o : Outcome A) : M A := λ w, (o, w).

Definition print (m : Message) : M unit :=
  λ w, (Return tt, {| STATUS_FILE := STATUS_FILE w; stdout := stdout w ++ [m] |}).

Definition sys_exit {A} (code : Z) : M A := λ w, (Exit code, w).

Definition read_status_file : M (option StatusData) :=
  λ w, (Return (STATUS_FILE w), w).

Definition write_status_file (d : StatusData) : M unit :=
  λ w, (Return tt, {| STATUS_FILE := Some d; stdout := stdout w |}).

Declare Scope py_scope.
Delimit Scope py_scope with py.
Notation "x <- c1 ;; c2" := (bind c1 (λ x, c2))
  (at level 100, c1 at next level, right associativity) : py_scope.
Notation "c1 ;; c2" := (bind c1 (λ _, c2))
  (at level 100, right associativity) : py_scope.
Open Scope py_scope.

(** [load_current_status()]. *)
Definition load_current_status : M StatusData :=
  f <- read_status_file ;;
  match f with
  | None => print ErrNoStatusFile ;; sys_exit 1
  | Some status_data => ret status_data
  end.

(** The key under which the updater looks a requirement up: the f-string
    [f'status.\\\\\\\\\\\\\\"{req_id}\\\\\\\\\\\\\\"'], whose fourteen
    source backslashes on each side denote seven. *)
Definition status_key (req_id : string) : string :=
  "status." ++ "\\\\\\\" ++ Py.dquote ++ req_id ++ "\\\\\\\" ++ Py.dquote.

(** The accumulators of the loop of [recalculate_statistics]. *)
Record Counters : Type := {
  level_counts : list nat;
  total_level : Z;
  total_requirements : nat
}.

(** One iteration of the loop body, for the pair [(key, req_status)]. *)
Definition count_item (acc : Counters) (item : string * Value) : Outcome Counters :=
  let (key, req_status) := item in
  if Py.startswith key "status." then
    match req_status with
    | VEntry e =>
        let level := level e in
        if (0 <=? level)%Z && (level <=? 4)%Z then
          Return {| level_counts := alter S (Z.to_nat level) (level_counts acc);
                    total_level := (total_level acc + level)%Z;
                    total_requirements := S (total_requirements acc) |}
        else Return acc
    | _ => Raise (KeyError "level")
    end
  else Return acc.

Fixpoint count_items (acc : Counters) (items : list (string * Value)) : Outcome Counters :=
  match items with
  | [] => Return acc
  | item :: items' =>
      match count_item acc item with
      | Return acc' => count_items acc' items'
      | Exit code => Exit code
      | Raise e => Raise e
      end
  end.

(** [recalculate_statistics(status_data)]; the result is the dictionary
    after the in-place assignment to [status_data['statistics']]. *)
Definition recalculate_statistics (now : string) (status_data : StatusData)
  : Outcome StatusData :=
  match count_items {| level_counts := [0; 0; 0; 0; 0]; total_level := 0;
                       total_requirements := 0 |}
                    (map_to_list status_data) with
  | Return acc =>
      let average_level : Q :=
        if (0 <? total_requirements acc)%nat
        then (inject_Z (total_level acc) / inject_Z (Z.of_nat (total_requirements acc)))%Q
        else 0%Q in
      Return (<["statistics" := VStatistics {|
        level_0_count := level_counts acc !!! 0%nat;
        level_1_count := level_counts acc !!! 1%nat;
        level_2_count := level_counts acc !!! 2%nat;
        level_3_count := level_counts acc !!! 3%nat;
        level_4_count := level_counts acc !!! 4%nat;
        average_level := Py.round average_level 3;
        compliance_percentage := Py.round (average_level / 4 * 100)%Q 2;
        last_calculated := now |}]> status_data)
  | Exit code => Exit code
  | Raise e => Raise e
  end.

(** The assignments of lines 47-56 to the requirement's table [e], for
    the arguments [level], [implementation], [test_file] and [notes] of
    the call. *)
Definition update_entry (now : string) (new_level : Z)
    (new_implementation new_test_file new_notes : string) (e : Entry) : Entry :=
  {| level := new_level;
     verified := (3 <=? new_level)%Z;
     last_checked := now;
     implementation :=
       if Py.truthy new_implementation then new_implementation else implementation e;
     test_file :=
       if Py.truthy new_test_file then new_test_file else test_file e;
     notes :=
       if Py.truthy new_notes then new_notes else notes e |}.

(** [update_requirement_status(req_id, level, implementation, test_file, notes)]. *)
Definition update_requirement_status (now : Clock) (req_id : string) (level : Z)
    (implementation test_file notes : string) : M bool :=
  print (MsgUpdating req_id level) ;;
  status_data <- load_current_status ;;
  if negb (bool_decide (level ∈ [0; 1; 2; 3; 4]%Z)) then
    print (ErrInvalidLevel level) ;; ret false
  else
    let status_key := status_key req_id in
    match status_data !! status_key with
    | None => print (ErrNotFound req_id) ;; ret false
    | Some (VEntry e) =>
        let status_data :=
          <[status_key := VEntry (update_entry (now_checked now) level
                                    implementation test_file notes e)]> status_data in
        match status_data !! "metadata" with
        | Some (VMetadata m) =>
            let status_data :=
              <["metadata" := VMetadata (touch (now_updated now) m)]> status_data in
            status_data <- lift (recalculate_statistics (now_calculated now) status_data) ;;
            write_status_file status_data ;;
            print (MsgUpdated req_id level) ;;
            ret true
        | Some _ => lift (Raise TypeError)
        | None => lift (Raise (KeyError "metadata"))
        end
    | Some _ => lift (Raise TypeError)
    end.

(** [show_requirement_status(req_id)]. *)
Definition show_requirement_status (req_id : string) : M unit :=
  status_data <- load_current_status ;;
  let status_key := status_key req_id in
  let matching_keys :=
    filter (λ k, Is_true (Py.contains req_id k)) (map fst (map_to_list status_data)) in
  (if matching_keys is [] then ret tt
   else print (MsgMatchingKeys req_id (take 3 matching_keys))) ;;
  match status_data !! status_key with
  | None =>
      let similar_keys :=
        take 5 (filter (λ k, Is_true (Py.startswith k "status."))
                       (map fst (map_to_list status_data))) in
      print (MsgShowNotFound req_id status_key similar_keys)
  | Some (VEntry req_status) => print (MsgShowEntry req_id req_status)
  | Some _ => lift (Raise (KeyError "level"))
  end.

(** [show_overall_statistics()]. *)
Definition show_overall_statistics : M unit :=
  status_data <- load_current_status ;;
  match status_data !! "statistics" with
  | Some (VStatistics stats) => print (MsgShowStatistics stats)
  | Some _ => lift (Raise (KeyError "level_0_count"))
  | None => lift (Raise (KeyError "statistics"))
  end.

(** The namespace returned by [parser.parse_args()]; an option that was
    not given is [None] ([stats] is a flag). *)
Record Args : Type := {
  req_id : option string;
  arg_level : option Z;
  arg_implementation : option string;
  arg_test_file : option string;
  arg_notes : option string;
  show : option string;
  stats : bool
}.

(** Truth value of an optional string argument: [None] and the empty
    string are falsy. *)
Definition given (x : option string) : bool :=
  match x with
  | Some s => Py.truthy s
  | None => false
  end.

(** [x or EmptyString] for an optional string argument. *)
Definition or_empty (x : option string) : string :=
  match x with
  | Some s => if Py.truthy s then s else EmptyString
  | None => EmptyString
  end.

(** The check [argparse] makes for [--level]: a value outside
    [choices=[0,1,2,3,4]] makes [parser.error] print the usage on standard
    error and exit with status 2. *)
Definition parse_args_check (args : Args) : M unit :=
  match arg_level args with
  | Some l => if bool_decide (l ∈ [0; 1; 2; 3; 4]%Z) then ret tt else sys_exit 2
  | None => ret tt
  end.

(** [main()], from [args = parser.parse_args()] on.  The value returned
    by [update_requirement_status] is dropped, as in the source. *)
Definition main (now : Clock) (args : Args) : M unit :=
  parse_args_check args ;;
  if stats args then show_overall_statistics
  else if given (show args) then show_requirement_status (or_empty (show args))
  else
    match arg_level args with
    | Some l =>
        if given (req_id args) then
          update_requirement_status now (or_empty (req_id args)) l
            (or_empty (arg_implementation args))
            (or_empty (arg_test_file args))
            (or_empty (arg_notes args)) ;;
          ret tt
        else print MsgUsage
    | None => print MsgUsage
    end.

End UpdateStatus.

(** ** scripts/create_initial_status.py *)

Module CreateInitialStatus.

(** A requirement record of the matrix file. *)
Record Requirement : Type := {
  id : string;
  name : string;
  description : string;
  iso_reference : string;
  requirement_type : string;
  page : Z;
  original_text : string
}.

(** A top-level table of the matrix file: its metadata, a section (whose
    [requirements] array may be absent), or any other table. *)
Inductive MatrixValue : Type :=
| MMetadata (version : string) (total_features : Z)
| MSection (name iso_section : string) (total_requirements : Z)
           (requirements : option (list Requirement))
| MOther.

(** The dictionary [matrix], as the sequence of its items in file order. *)
Abbreviation Matrix := (list (string * MatrixValue)).

Fixpoint matrix_get (key : string) (matrix : Matrix) : option MatrixValue :=
  match matrix with
  | [] => None
  | (k, v) :: matrix' => if String.eqb k key then Some v else matrix_get key matrix'
  end.

(** The list [all_ids] at the end of the loop of
    [extract_all_requirement_ids]. *)
Definition collect_ids (matrix : Matrix) : list string :=
  flat_map (λ item : string * MatrixValue,
              let (section_key, section_data) := item in
              if Py.startswith section_key "section_" then
                match section_data with
                | MSection _ _ _ (Some requirements) => map id requirements
                | _ => []
                end
              else [])
           matrix.

(** [extract_all_requirement_ids(matrix)]. *)
Definition extract_all_requirement_ids (matrix : Matrix) : list string :=
  Py.sorted String.leb (collect_ids matrix).

(** The key the initialiser stores a requirement under, the f-string
    [f'status."{req_id}"']. *)
Definition status_key (req_id : string) : string :=
  "status." ++ Py.dquote ++ req_id ++ Py.dquote.

Definition initial_entry : Entry :=
  {| level := 0;
     implementation := EmptyString;
     test_file := EmptyString;
     verified := false;
     last_checked := "never";
     notes := "Pendiente de verificación" |}.

(** [create_initial_status(matrix, requirement_ids)]; the two arguments
    [now_updated] and [now_calculated] are the readings of the clock. *)
Definition create_initial_status (now_updated now_calculated : string)
    (matrix : Matrix) (requirement_ids : list string) : Outcome StatusData :=
  match matrix_get "metadata" matrix with
  | Some (MMetadata version _) =>
      let status_data : StatusData :=
        {[ "metadata" := VMetadata {|
             last_updated := now_updated;
             matrix_version := version;
             total_requirements := length requirement_ids;
             note := "Este es el ÚNICO archivo de estado. NO crear copias o duplicados.";
             warning := "Solo este archivo se modifica. La matriz ISO_COMPLIANCE_MATRIX.toml es INMUTABLE." |} ]} in
      let status_data :=
        foldl (λ (d : StatusData) req_id, <[status_key req_id := VEntry initial_entry]> d)
              status_data requirement_ids in
      Return (<["statistics" := VStatistics {|
        level_0_count := length requirement_ids;
        level_1_count := 0;
        level_2_count := 0;
        level_3_count := 0;
        level_4_count := 0;
        average_level := 0%Q;
        compliance_percentage := 0%Q;
        last_calculated := now_calculated |}]> status_data)
  | Some _ => Raise (KeyError "version")
  | None => Raise (KeyError "metadata")
  end.

(** Lines 113-121 of [main()]: the Ledger built from a loaded matrix. *)
Definition initialize (now_updated now_calculated : string) (matrix : Matrix)
  : Outcome StatusData :=
  let requirement_ids := extract_all_requirement_ids matrix in
  create_initial_status now_updated now_calculated matrix requirement_ids.

End CreateInitialStatus.

(** ** scripts/generate_compliance_report.py: the recent-activity table *)

Module ComplianceReport.

(** A tuple of [recent_updates]:
    [(req_id, level, last_checked, notes)]. *)
Record Update : Type := {
  upd_req_id : string;
  upd_level : Z;
  upd_last_checked : string;
  upd_notes : string
}.

(** The loop of lines 88-98.  Only a requirement's table has a
    [last_checked] field.  The items are visited in the order of
    [map_to_list]; the order of the file only decides how ties of the
    sort below are broken. *)
Definition collect_updates (status_data : StatusData) : list Update :=
  omap (λ item : string * Value,
          let (key, req_status) := item in
          if Py.startswith key "status." then
            match req_status with
            | VEntry e =>
                Some {| upd_req_id :=
                          Py.replace (Py.replace key ("status." ++ Py.dquote) EmptyString)
                                     Py.dquote EmptyString;
                        upd_level := level e;
                        upd_last_checked := last_checked e;
                        upd_notes := notes e |}
            | _ => None
            end
          else None)
       (map_to_list status_data).

(** [recent_updates.sort(key=lambda x: x[2], reverse=True)]: descending
    in the string order of [last_checked], stable. *)
Definition sort_updates (recent_updates : list Update) : list Update :=
  Py.sorted (λ x y, String.leb (upd_last_checked y) (upd_last_checked x)) recent_updates.

(** The rows of the table: [recent_updates[:10]] after the sort. *)
Definition recent_activity (status_data : StatusData) : list Update :=
  take 10 (sort_updates (collect_updates status_data)).

(** One rendered row: the date is [last_checked[:10]], long notes are cut
    (lengths are in bytes, which is the Python length for ASCII notes). *)
Definition render_row (u : Update) : string * Z * string * string :=
  let short_notes :=
    if (50 <? String.length (upd_notes u))%nat
    then Py.slice_to 50 (upd_notes u) ++ "..."
    else upd_notes u in
  (upd_req_id u, upd_level u, Py.slice_to 10 (upd_last_checked u), short_notes).

End ComplianceReport.

(** ** tools/master_compliance_analyzer.py: the evidence score *)

Module ComplianceAnalyzer.

(** A requirement of the master file, as far as the score reads it:
    [keywords] is [req.get('keywords', [])]. *)
Record Requirement : Type := {
  keywords : list string;
  text : string
}.

Inductive Level : Type := impl | partial | missing.

Definition pdf_terms : list string :=
  ["pdf"; "object"; "stream"; "dictionary"; "array"; "page";
   "graphics"; "text"; "font"; "color"; "image"; "filter";
   "annotation"; "form"; "field"; "encrypt"; "security"].

(** The set [basic_keywords] of [_extract_basic_keywords]. *)
Definition basic_keywords : list string :=
  ["pdf"; "object"; "stream"; "dictionary"; "array"; "page";
   "graphics"; "text"; "font"; "color"; "image"; "filter";
   "annotation"; "form"; "field"; "encrypt"; "security"].

(** The inner statement of the loops of lines 148-151. *)
Definition add_evidence (keyword : string) (score : nat) (file_content : string) : nat :=
  if Py.contains keyword file_content
  then score + Nat.min (Py.count file_content keyword) 5
  else score.

(** The two nested loops: for each keyword, for each file content. *)
Definition scan (keywords file_contents : list string) (score : nat) : nat :=
  foldl (λ score keyword, foldl (add_evidence keyword) score file_contents)
        score keywords.

(** [if evidence_score >= 20: ... elif evidence_score >= 8: ... else: ...] *)
Definition classify (evidence_score : nat) : Level :=
  if (20 <=? evidence_score)%nat then impl
  else if (8 <=? evidence_score)%nat then partial
  else missing.

Section Analyzer.

(** Library functions the keyword fallbacks go through:
    [re.findall(r'\\b\\w+\\b', s)], [s.lower()] and [s.split()]. *)
Variable re_findall_words : string → list string.
Variable lower : string → string.
Variable split : string → list string.

(** [self.source_files]: relative path to lower-cased content. *)
Variable source_files : gmap string string.

(** [_extract_basic_keywords(text)]. *)
Definition _extract_basic_keywords (text : string) : list string :=
  let words := re_findall_words (lower text) in
  filter (λ w, w ∈ basic_keywords) words.

(** The keywords the score is computed from (lines 133-146). *)
Definition effective_keywords (req : Requirement) : list string :=
  let keywords := keywords req in
  let keywords :=
    if keywords is [] then _extract_basic_keywords (text req) else keywords in
  if keywords is [] then
    filter (λ w, w ∈ pdf_terms) (split (lower (text req)))
  else keywords.

(** [_calculate_evidence_score(req)]. *)
Definition _calculate_evidence_score (req : Requirement) : nat :=
  scan (effective_keywords req) (map snd (map_to_list source_files)) 0.

(** The three counters of [analyze_implementation]:
    [(implemented, partial, not_implemented)]. *)
Definition analyze_implementation (requirements : list Requirement) : nat * nat * nat :=
  foldl (λ (acc : nat * nat * nat) req,
           let '(implemented, partial_count, not_implemented) := acc in
           match classify (_calculate_evidence_score req) with
           | impl => (S implemented, partial_count, not_implemented)
           | partial => (implemented, S partial_count, not_implemented)
           | missing => (implemented, partial_count, S not_implemented)
           end)
        (0, 0, 0) requirements.

End Analyzer.

End ComplianceAnalyzer.

(** ** scripts/create_initial_status.py: [main] *)

Module CreateInitialStatusMain.

(** [c.lower()] for one character: the letters A-Z are lowered.  Python
    also lowers letters outside ASCII; none of them becomes an ASCII
    letter. *)
Definition lower_char (c : ascii) : ascii :=
  let n := nat_of_ascii c in
  if (65 <=? n)%nat && (n <=? 90)%nat then ascii_of_nat (n + 32) else c.

(** [s.lower()]. *)
Fixpoint lower (s : string) : string :=
  match s with
  | EmptyString => EmptyString
  | String c s' => String (lower_char c) (lower s')
  end.

(** The two files of the script, [None] when a file does not exist.
    What is printed is not modelled. *)
Record World : Type := {
  MATRIX_FILE : option CreateInitialStatus.Matrix;
  STATUS_FILE : option StatusData
}.

(** [load_compliance_matrix(matrix_path)] on the content of the file: it
    reads [matrix['metadata']['total_features']] to print it. *)
Definition load_compliance_matrix (matrix : CreateInitialStatus.Matrix)
  : Outcome CreateInitialStatus.Matrix :=
  match CreateInitialStatus.matrix_get "metadata" matrix with
  | Some (CreateInitialStatus.MMetadata _ _) => Return matrix
  | Some _ => Raise (KeyError "total_features")
  | None => Raise (KeyError "metadata")
  end.

(** [main()].  [response] is what the user types when asked whether the
    existing status file may be overwritten (the question is only asked
    when the file exists); [now_updated] and [now_calculated] are the
    readings of the clock. *)
Definition main (response now_updated now_calculated : string) (w : World)
  : Outcome unit * World :=
  match MATRIX_FILE w with
  | None => (Exit 1, w)
  | Some matrix_file =>
      if match STATUS_FILE w with
         | Some _ => negb (String.eqb (lower response) "y")
         | None => false
         end
      then (Exit 0, w)
      else
        match load_compliance_matrix matrix_file with
        | Return matrix =>
            let requirement_ids := CreateInitialStatus.extract_all_requirement_ids matrix in
            match CreateInitialStatus.create_initial_status now_updated now_calculated
                    matrix requirement_ids with
            | Return status_data =>
                (Return tt, {| MATRIX_FILE := MATRIX_FILE w;
                               STATUS_FILE := Some status_data |})
            | Exit code => (Exit code, w)
            | Raise e => (Raise e, w)
            end
        | Exit code => (Exit code, w)
        | Raise e => (Raise e, w)
        end
  end.

End CreateInitialStatusMain.

(** ** scripts/generate_compliance_report.py: statistics, progress and
    priorities *)

Module ReportBody.

(** [int(x)] of a float: truncation toward zero. *)
Definition int_of_float (x : Q) : Z :=
  if Qle_bool 0 x then Qfloor x else Qceiling x.

(** The sum of the five counts (lines 45 and 56). *)
Definition total (stats : Statistics) : nat :=
  level_0_count stats + level_1_count stats + level_2_count stats
  + level_3_count stats + level_4_count stats.




(** The two characters of the progress bar, the full and the light
    block. *)
Inductive Cell : Type := Full | Light.

(** [progress_bar]: a string times a negative number is the empty
    string. *)
Definition progress_bar (compliance_pct : Q) : list Cell :=
  replicate (Z.to_nat (int_of_float (compliance_pct / 5))) Full
  ++ replicate (Z.to_nat (20 - int_of_float (compliance_pct / 5))) Light.

(** [key.replace('status."', '').replace('"', '')]. *)
Definition req_id_of_key (key : string) : string :=
  Py.replace (Py.replace key ("status." ++ Py.dquote) EmptyString)
             Py.dquote EmptyString.

(** The list [unimplemented] of lines 122-127: [req_status.get('level', 0)]
    is 0 for a table without a level.  The items are visited in the order
    of [map_to_list]. *)
Definition unimplemented (status_data : StatusData) : list string :=
  omap (λ item : string * Value,
          let (key, req_status) := item in
          if Py.startswith key "status." then
            let level :=
              match req_status with
              | VEntry e => level e
              | _ => 0%Z
              end in
            if (level =? 0)%Z then Some (req_id_of_key key) else None
          else None)
       (map_to_list status_data).

(** The requirements listed under Top Unimplemented Requirements. *)
Definition top_unimplemented (status_data : StatusData) : list string :=
  take 20 (unimplemented status_data).

End ReportBody.

(** ** tools/master_compliance_analyzer.py: results and compliance *)

Module AnalyzerResults.

(** A computation that may stop with a division by zero. *)
Inductive Result (A : Type) : Type :=
| Ok (a : A)
| ZeroDivisionError.
Arguments Ok {A} a.
Arguments ZeroDivisionError {A}.

(** [s.split(sep)] for a separator of one character. *)
Fixpoint split (sep : ascii) (s : string) : list string :=
  match s with
  | EmptyString => [EmptyString]
  | String c s' =>
      if Ascii.eqb c sep then EmptyString :: split sep s'
      else
        match split sep s' with
        | part :: parts => String c part :: parts
        | [] => [String c EmptyString]
        end
  end.

(** [_get_section_prefix(req_id)]. *)
Definition _get_section_prefix (req_id : string) : string :=
  match split "." req_id with
  | part :: _ => part
  | [] => "Unknown"
  end.

(** The counters of [self.results]. *)
Record Results : Type := {
  total : nat;
  implemented : nat;
  partial : nat;
  not_implemented : nat
}.

Section Analyzer.

Variable re_findall_words : string → list string.
Variable lower : string → string.
Variable split_words : string → list string.
Variable source_files : gmap string string.

(** [analyze_implementation()]: the counters it stores in [self.results],
    then the three lines it prints, each of which divides by
    [len(self.requirements)]. *)
Definition analyze_implementation (requirements : list ComplianceAnalyzer.Requirement)
  : Result Results :=
  let '(implemented, partial, not_implemented) :=
    ComplianceAnalyzer.analyze_implementation re_findall_words lower split_words
      source_files requirements in
  if length requirements is O then ZeroDivisionError
  else Ok {| total := length requirements;
             implemented := implemented;
             partial := partial;
             not_implemented := not_implemented |}.

End Analyzer.




End AnalyzerResults.

(** ** Notions used to state the properties *)

(** The requirement table held by an item of the status dictionary, if
    its key starts with [status.]. *)
Definition status_entry (item : string * Value) : option Entry :=
  if Py.startswith item.1 "status." then
    match item.2 with
    | VEntry e => Some e
    | _ => None
    end
  else None.

(** The entry set of a Ledger. *)
Definition ledger_entries (d : StatusData) : list Entry :=
  omap status_entry (map_to_list d).

(** The number of entries at level [l]. *)
Definition count_at (l : Z) (es : list Entry) : nat :=
  length (filter (λ e, level e = l) es).

(** Every key that starts with [status.] holds a requirement table. *)
Definition well_typed (d : StatusData) : Prop :=
  ∀ k v, d !! k = Some v → Py.startswith k "status." = true → ∃ e, v = VEntry e.

(** The invariant of the entries of a Ledger: the level is one of 0..4 and
    [verified] is derived from it. *)
Definition entry_ok (e : Entry) : Prop :=
  (0 ≤ level e ≤ 4)%Z ∧ verified e = (3 <=? level e)%Z.

Definition item_ok (k : string) (v : Value) : Prop :=
  match v with
  | VEntry e => Py.startswith k "status." = true → entry_ok e
  | _ => True
  end.

#[global] Instance item_ok_dec k v : Decision (item_ok k v).
Proof. destruct v; simpl; unfold entry_ok; apply _. Defined.

Definition ledger_wf (d : StatusData) : Prop := map_Forall item_ok d.

(** [Σ level·count] and the total of a statistics block. *)
Definition weighted_levels (st : Statistics) : Z :=
  (0 * Z.of_nat (level_0_count st) + 1 * Z.of_nat (level_1_count st)
   + 2 * Z.of_nat (level_2_count st) + 3 * Z.of_nat (level_3_count st)
   + 4 * Z.of_nat (level_4_count st))%Z.

Definition counted (st : Statistics) : nat :=
  level_0_count st + level_1_count st + level_2_count st
  + level_3_count st + level_4_count st.

(** The average [Σ(level·count)/total] as an exact rational, 0 for an
    empty Ledger. *)
Definition exact_average (st : Statistics) : Q :=
  if counted st is O then 0%Q
  else (inject_Z (weighted_levels st) / inject_Z (Z.of_nat (counted st)))%Q.

(** A statistics block that is derivable from the entry set [es]. *)
Definition statistics_consistent (st : Statistics) (es : list Entry) : Prop :=
  level_0_count st = count_at 0 es ∧
  level_1_count st = count_at 1 es ∧
  level_2_count st = count_at 2 es ∧
  level_3_count st = count_at 3 es ∧
  level_4_count st = count_at 4 es ∧
  counted st = length es ∧
  (Qabs (average_level st - exact_average st) <= 1 # 1000)%Q ∧
  (Qabs (compliance_percentage st - Py.round (exact_average st / 4 * 100)%Q 2)
   <= 1 # 1000)%Q ∧
  Forall (λ e, verified e = (3 <=? level e)%Z) es.



(** The score and the classification in the words of the design: the sum,
    over the keywords and the source files, of the occurrences of the
    keyword in the file, at most [cap] for each pair. *)
Definition spec_score (cap : nat) (keywords file_contents : list string) : nat :=
  sum_list (keyword ← keywords;
            file_content ← file_contents;
            [Nat.min (Py.count file_content keyword) cap]).


(** The entries the statistics loop counts, and the sum of their levels. *)
Definition in_range (e : Entry) : Prop := (0 ≤ level e ≤ 4)%Z.

Definition sum_levels (es : list Entry) : Z :=
  foldr (λ e s, (level e + s)%Z) 0%Z es.

(** The counters of [recalculate_statistics] after the entries [es] have
    been visited, in closed form. *)
Definition add_counts (acc : UpdateStatus.Counters) (es : list Entry)
  : UpdateStatus.Counters :=
  {| UpdateStatus.level_counts :=
       [UpdateStatus.level_counts acc !!! 0%nat + count_at 0 es;
        UpdateStatus.level_counts acc !!! 1%nat + count_at 1 es;
        UpdateStatus.level_counts acc !!! 2%nat + count_at 2 es;
        UpdateStatus.level_counts acc !!! 3%nat + count_at 3 es;
        UpdateStatus.level_counts acc !!! 4%nat + count_at 4 es];
     UpdateStatus.total_level :=
       (UpdateStatus.total_level acc + sum_levels (filter in_range es))%Z;
     UpdateStatus.total_requirements :=
       UpdateStatus.total_requirements acc + length (filter in_range es) |}.

(** The average level the loop arrives at, from the entries [es]. *)
Definition average_of (es : list Entry) : Q :=
  let counted := filter in_range es in
  if (0 <? length counted)%nat
  then (inject_Z (sum_levels counted) / inject_Z (Z.of_nat (length counted)))%Q
  else 0%Q.

(** The statistics block computed from the entries [es], in closed form. *)
Definition statistics_of (now : string) (es : list Entry) : Statistics :=
  {| level_0_count := count_at 0 es;
     level_1_count := count_at 1 es;
     level_2_count := count_at 2 es;
     level_3_count := count_at 3 es;
     level_4_count := count_at 4 es;
     average_level := Py.round (average_of es) 3;
     compliance_percentage := Py.round (average_of es / 4 * 100)%Q 2;
     last_calculated := now |}.

(** The dictionary after the assignments to the requirement's table and
    to the metadata, before the statistics are recomputed. *)
Definition assigned (now : UpdateStatus.Clock) (req_id : string) (level : Z)
    (implementation test_file notes : string) (e : Entry) (m : Metadata)
    (d : StatusData) : StatusData :=
  <["metadata" := VMetadata (touch (UpdateStatus.now_updated now) m)]>
    (<[UpdateStatus.status_key req_id :=
         VEntry (UpdateStatus.update_entry (UpdateStatus.now_checked now) level
                   implementation test_file notes e)]> d).

(** The dictionary a successful update writes to the file. *)
Definition updated (now : UpdateStatus.Clock) (req_id : string) (level : Z)
    (implementation test_file notes : string) (e : Entry) (m : Metadata)
    (d : StatusData) : StatusData :=
  let d2 := assigned now req_id level implementation test_file notes e m d in
  <["statistics" :=
      VStatistics (statistics_of (UpdateStatus.now_calculated now) (ledger_entries d2))]> d2.

#[global] Instance level_eq_dec : EqDecision ComplianceAnalyzer.Level.
Proof. solve_decision. Defined.

(** The classification of a requirement: [classify] of its evidence
    score. *)
Definition requirement_level (re_findall_words : string → list string)
    (lower : string → string) (split_words : string → list string)
    (source_files : gmap string string) (req : ComplianceAnalyzer.Requirement)
  : ComplianceAnalyzer.Level :=
  ComplianceAnalyzer.classify
    (ComplianceAnalyzer._calculate_evidence_score re_findall_words lower split_words
       source_files req).

(** ** Concrete inputs *)

Definition example_clock : UpdateStatus.Clock :=
  {| UpdateStatus.now_checked := "2025-08-21T10:00:00.000001";
     UpdateStatus.now_updated := "2025-08-21T10:00:00.000002";
     UpdateStatus.now_calculated := "2025-08-21T10:00:00.000003" |}.

Definition later_clock : UpdateStatus.Clock :=
  {| UpdateStatus.now_checked := "2025-08-22T09:30:00.000001";
     UpdateStatus.now_updated := "2025-08-22T09:30:00.000002";
     UpdateStatus.now_calculated := "2025-08-22T09:30:00.000003" |}.

Definition example_metadata : Metadata :=
  {| last_updated := "2025-08-20T08:00:00";
     matrix_version := "2025-08-20";
     total_requirements := 2;
     note := "n";
     warning := "w" |}.

(** A status file whose requirement keys have the form the updater looks
    up. *)
Definition example_ledger : StatusData :=
  <[UpdateStatus.status_key "7.5.2.1" := VEntry CreateInitialStatus.initial_entry]>
    (<[UpdateStatus.status_key "7.3" := VEntry CreateInitialStatus.initial_entry]>
       {[ "metadata" := VMetadata example_metadata ]}).

Definition example_world : UpdateStatus.World :=
  {| UpdateStatus.STATUS_FILE := Some example_ledger; UpdateStatus.stdout := [] |}.

Definition example_requirement (i : string) : CreateInitialStatus.Requirement :=
  {| CreateInitialStatus.id := i;
     CreateInitialStatus.name := "Requirement " ++ i;
     CreateInitialStatus.description := "d";
     CreateInitialStatus.iso_reference := "r";
     CreateInitialStatus.requirement_type := "mandatory";
     CreateInitialStatus.page := 1;
     CreateInitialStatus.original_text := "t" |}.

(** A matrix with two requirements, and one in which an id occurs twice. *)
Definition example_matrix : CreateInitialStatus.Matrix :=
  [("metadata", CreateInitialStatus.MMetadata "2025-08-20" 2);
   ("section_7_syntax",
    CreateInitialStatus.MSection "Document Syntax" "7" 2
      (Some [example_requirement "7.5.2.1"; example_requirement "7.3"]))].

Definition duplicate_matrix : CreateInitialStatus.Matrix :=
  [("metadata", CreateInitialStatus.MMetadata "2025-08-20" 2);
   ("section_7_syntax",
    CreateInitialStatus.MSection "Document Syntax" "7" 2
      (Some [example_requirement "7.3"; example_requirement "7.3"]))].

(** A status file in which one requirement has been checked and another
    has never been. *)
Definition report_ledger : StatusData :=
  <[CreateInitialStatus.status_key "7.5.2.1" := VEntry CreateInitialStatus.initial_entry]>
    (<[CreateInitialStatus.status_key "7.3" :=
         VEntry {| level := 3; implementation := "src/document.rs:156";
                   test_file := EmptyString; verified := true;
                   last_checked := "2025-08-21T10:00:00.000001";
                   notes := "Catalog verified" |}]>
       {[ "metadata" := VMetadata example_metadata ]}).

(** The command line [--req-id <id> --level <level>]. *)
Definition update_args (id : string) (level : Z) : UpdateStatus.Args :=
  {| UpdateStatus.req_id := Some id;
     UpdateStatus.arg_level := Some level;
     UpdateStatus.arg_implementation := None;
     UpdateStatus.arg_test_file := None;
     UpdateStatus.arg_notes := None;
     UpdateStatus.show := None;
     UpdateStatus.stats := false |}.

(** The scenario with three requirements A, B and C, all at level 0. *)
Definition scenario_ledger : StatusData :=
  <[UpdateStatus.status_key "A" := VEntry CreateInitialStatus.initial_entry]>
    (<[UpdateStatus.status_key "B" := VEntry CreateInitialStatus.initial_entry]>
       (<[UpdateStatus.status_key "C" := VEntry CreateInitialStatus.initial_entry]>
          {[ "metadata" := VMetadata example_metadata ]})).

(** The statistics block of a stored Ledger file, if any. *)
Definition stored_statistics (w : UpdateStatus.World) : option Statistics :=
  match UpdateStatus.STATUS_FILE w with
  | Some d =>
      match d !! "statistics" with
      | Some (VStatistics st) => Some st
      | _ => None
      end
  | None => None
  end.

(** ** Properties of the Python primitives *)

Lemma startswith_cons c s pre :
  Py.startswith (String c s) (String c pre) = Py.startswith s pre.
Proof.
  unfold Py.startswith. simpl. destruct (ascii_dec c c); [done | congruence].
Qed.


Lemma initial_key_is_status req_id :
  Py.startswith (CreateInitialStatus.status_key req_id) "status." = true.
Proof. reflexivity. Qed.

Lemma update_key_not_metadata req_id : UpdateStatus.status_key req_id ≠ "metadata".
Proof. discriminate. Qed.

Lemma update_key_not_statistics req_id : UpdateStatus.status_key req_id ≠ "statistics".
Proof. discriminate. Qed.

Lemma initial_key_not_metadata req_id : CreateInitialStatus.status_key req_id ≠ "metadata".
Proof. discriminate. Qed.

Lemma initial_key_not_statistics req_id :
  CreateInitialStatus.status_key req_id ≠ "statistics".
Proof. discriminate. Qed.

(** The initialiser and the updater never use the same key, whatever the
    two requirement ids are. *)
Lemma initial_key_not_update_key a b :
  CreateInitialStatus.status_key a ≠ UpdateStatus.status_key b.
Proof. discriminate. Qed.

Lemma length_append (s t : string) :
  String.length (s ++ t) = String.length s + String.length t.
Proof. induction s as [|c s IH]; simpl; [done | by rewrite IH]. Qed.

Lemma append_inj_r (s1 s2 t : string) : s1 ++ t = s2 ++ t → s1 = s2.
Proof.
  intros H.
  assert (Hl : String.length s1 = String.length s2).
  { apply (f_equal String.length) in H. rewrite !length_append in H. lia. }
  revert s2 H Hl. induction s1 as [|c s1 IH]; intros [|c' s2] H Hl; simpl in *;
    try done.
  injection H as -> H. f_equal. apply IH; [done | lia].
Qed.

Lemma initial_key_inj a b :
  CreateInitialStatus.status_key a = CreateInitialStatus.status_key b → a = b.
Proof.
  unfold CreateInitialStatus.status_key. intros H.
  do 2 apply String.app_inj in H.
  by apply append_inj_r in H.
Qed.

Lemma update_key_inj a b :
  UpdateStatus.status_key a = UpdateStatus.status_key b → a = b.
Proof.
  unfold UpdateStatus.status_key. intros H.
  do 3 apply String.app_inj in H.
  by apply append_inj_r in H.
Qed.

(** ** Rounding *)




(** ** The entry set of a dictionary *)


Lemma map_to_list_insert_delete (d : StatusData) k v :
  map_to_list (<[k := v]> d) ≡ₚ (k, v) :: map_to_list (delete k d).
Proof.
  rewrite <- (insert_delete_eq d). apply map_to_list_insert, lookup_delete_eq.
Qed.

Lemma ledger_entries_insert_entry (d : StatusData) k e :
  Py.startswith k "status." = true →
  ledger_entries (<[k := VEntry e]> d) ≡ₚ e :: ledger_entries (delete k d).
Proof.
  intros Hk. unfold ledger_entries. rewrite map_to_list_insert_delete. simpl.
  unfold status_entry at 1. simpl. by rewrite Hk.
Qed.


Lemma ledger_entries_delete_other (d : StatusData) k :
  Py.startswith k "status." = false →
  ledger_entries (delete k d) ≡ₚ ledger_entries d.
Proof.
  intros Hk. destruct (d !! k) as [v|] eqn:Hd.
  - unfold ledger_entries. rewrite <- (map_to_list_delete d k v Hd). simpl.
    unfold status_entry at 2. simpl. by rewrite Hk.
  - by rewrite delete_id.
Qed.

Lemma ledger_entries_insert_other (d : StatusData) k v :
  Py.startswith k "status." = false →
  ledger_entries (<[k := v]> d) ≡ₚ ledger_entries d.
Proof.
  intros Hk. unfold ledger_entries at 1. rewrite map_to_list_insert_delete. simpl.
  unfold status_entry at 1. simpl. rewrite Hk.
  by apply ledger_entries_delete_other.
Qed.

(** ** The loop of [recalculate_statistics] *)

Lemma count_at_cons l e es :
  count_at l (e :: es) = (if decide (level e = l) then 1 else 0) + count_at l es.
Proof. unfold count_at. rewrite filter_cons. by case_decide. Qed.

Lemma filter_in_range_cons e es :
  filter in_range (e :: es) =
  if decide (in_range e) then e :: filter in_range es else filter in_range es.
Proof. by rewrite filter_cons. Qed.

Lemma add_counts_nil acc :
  length (UpdateStatus.level_counts acc) = 5 → add_counts acc [] = acc.
Proof.
  destruct acc as [lc tl tr]. simpl. intros Hlen.
  destruct lc as [|a0 [|a1 [|a2 [|a3 [|a4 [|]]]]]]; try done.
  unfold add_counts. simpl. f_equal.
  - by rewrite !Nat.add_0_r.
  - lia.
  - lia.
Qed.

(** One more entry in the closed form, when the loop counts it. *)
Lemma add_counts_counted lc tl tr e es :
  length lc = 5 → in_range e →
  add_counts {| UpdateStatus.level_counts := alter S (Z.to_nat (level e)) lc;
                UpdateStatus.total_level := (tl + level e)%Z;
                UpdateStatus.total_requirements := S tr |} es =
  add_counts {| UpdateStatus.level_counts := lc;
                UpdateStatus.total_level := tl;
                UpdateStatus.total_requirements := tr |} (e :: es).
Proof.
  intros Hlen Hr.
  destruct lc as [|a0 [|a1 [|a2 [|a3 [|a4 [|]]]]]]; try done.
  unfold add_counts. simpl UpdateStatus.level_counts.
  simpl UpdateStatus.total_level. simpl UpdateStatus.total_requirements.
  rewrite filter_in_range_cons, decide_True by done.
  rewrite !count_at_cons. unfold in_range in Hr.
  assert (Hcases : level e = 0%Z ∨ level e = 1%Z ∨ level e = 2%Z ∨ level e = 3%Z
                   ∨ level e = 4%Z) by lia.
  destruct Hcases as [H|[H|[H|[H|H]]]]; rewrite H; simpl;
    (f_equal; [repeat f_equal; lia | lia | lia]).
Qed.

(** An entry outside 0..4 is skipped by the loop and by the closed form. *)
Lemma add_counts_skipped acc e es :
  ¬ in_range e → add_counts acc (e :: es) = add_counts acc es.
Proof.
  intros Hr. unfold add_counts.
  rewrite filter_in_range_cons, decide_False by done.
  rewrite !count_at_cons. unfold in_range in Hr.
  rewrite !decide_False by lia. done.
Qed.

(** An item of a well typed dictionary. *)
Lemma count_item_typed acc k v :
  (Py.startswith k "status." = true → ∃ e, v = VEntry e) →
  ∃ acc', UpdateStatus.count_item acc (k, v) = Return acc'.
Proof.
  intros Ht. unfold UpdateStatus.count_item.
  destruct (Py.startswith k "status."); [|eauto].
  destruct Ht as [e ->]; [done|].
  destruct (_ && _); eauto.
Qed.

Lemma count_items_closed acc items :
  length (UpdateStatus.level_counts acc) = 5 →
  Forall (λ item : string * Value,
            Py.startswith item.1 "status." = true → ∃ e, item.2 = VEntry e) items →
  UpdateStatus.count_items acc items = Return (add_counts acc (omap status_entry items)).
Proof.
  intros Hlen Hall. revert acc Hlen.
  induction Hall as [|[k v] items Ht _ IH]; intros acc Hlen.
  - simpl. by rewrite add_counts_nil.
  - simpl in Ht. simpl. unfold status_entry at 1. simpl.
    destruct (Py.startswith k "status.") eqn:Hk.
    + destruct Ht as [e ->]; [done|].
      destruct ((0 <=? level e)%Z && (level e <=? 4)%Z) eqn:Hr.
      * assert (in_range e) by (unfold in_range; lia).
        destruct acc as [lc tl tr]. simpl in *.
        rewrite IH by (simpl; by rewrite length_alter).
        by rewrite add_counts_counted.
      * assert (¬ in_range e) by (unfold in_range; lia).
        rewrite IH by done. by rewrite add_counts_skipped.
    + by apply IH.
Qed.

(** The loop ends normally only on a well typed dictionary. *)
Lemma count_items_return acc items acc' :
  UpdateStatus.count_items acc items = Return acc' →
  Forall (λ item : string * Value,
            Py.startswith item.1 "status." = true → ∃ e, item.2 = VEntry e) items.
Proof.
  revert acc. induction items as [|[k v] items IH]; intros acc H; [done|].
  simpl in H. constructor.
  - simpl. intros Hk. rewrite Hk in H. destruct v; eauto; done.
  - destruct (Py.startswith k "status."); [|by eapply IH].
    destruct v; try done.
    destruct (_ && _); by eapply IH.
Qed.

Lemma well_typed_items (d : StatusData) :
  well_typed d ↔
  Forall (λ item : string * Value,
            Py.startswith item.1 "status." = true → ∃ e, item.2 = VEntry e)
         (map_to_list d).
Proof.
  rewrite Forall_forall. split.
  - intros Hwt [k v] Hin. apply elem_of_map_to_list in Hin. simpl. eauto.
  - intros Hall k v Hd Hk. apply elem_of_map_to_list in Hd.
    by apply (Hall (k, v)).
Qed.

(** [recalculate_statistics] in closed form. *)
Lemma recalculate_statistics_closed now (d : StatusData) :
  well_typed d →
  UpdateStatus.recalculate_statistics now d =
  Return (<["statistics" := VStatistics (statistics_of now (ledger_entries d))]> d).
Proof.
  intros Hwt. unfold UpdateStatus.recalculate_statistics.
  rewrite count_items_closed; [done | done | by apply well_typed_items].
Qed.

Lemma recalculate_statistics_return now (d d' : StatusData) :
  UpdateStatus.recalculate_statistics now d = Return d' → well_typed d.
Proof.
  unfold UpdateStatus.recalculate_statistics. intros H.
  destruct (UpdateStatus.count_items _ _) as [acc| |] eqn:Hc; try done.
  apply well_typed_items. by eapply count_items_return.
Qed.

(** ** The runs of [update_requirement_status] *)

Lemma level_choice (level : Z) :
  bool_decide (level ∈ [0; 1; 2; 3; 4]%Z) = true ↔ (0 ≤ level ≤ 4)%Z.
Proof.
  rewrite bool_decide_eq_true, !elem_of_cons, elem_of_nil. lia.
Qed.

Lemma level_not_choice (level : Z) :
  bool_decide (level ∈ [0; 1; 2; 3; 4]%Z) = false ↔ ¬ (0 ≤ level ≤ 4)%Z.
Proof.
  rewrite bool_decide_eq_false, !elem_of_cons, elem_of_nil. lia.
Qed.

Ltac run_update :=
  unfold UpdateStatus.update_requirement_status, UpdateStatus.load_current_status,
    UpdateStatus.bind, UpdateStatus.print, UpdateStatus.read_status_file,
    UpdateStatus.write_status_file, UpdateStatus.sys_exit, UpdateStatus.ret,
    UpdateStatus.lift; simpl.

Lemma well_typed_insert_entry (d : StatusData) k e :
  well_typed d → well_typed (<[k := VEntry e]> d).
Proof.
  intros Hwt k' v Hl Hk'. destruct (decide (k = k')) as [->|Hne].
  - rewrite lookup_insert_eq in Hl. simplify_eq. eauto.
  - rewrite lookup_insert_ne in Hl by done. eauto.
Qed.

Lemma well_typed_insert_other (d : StatusData) k v :
  Py.startswith k "status." = false →
  well_typed d ↔ well_typed (<[k := v]> d).
Proof.
  intros Hk. split; intros Hwt k' v' Hl Hk'.
  - destruct (decide (k = k')) as [->|Hne]; [congruence|].
    rewrite lookup_insert_ne in Hl by done. eauto.
  - destruct (decide (k = k')) as [->|Hne]; [congruence|].
    apply (Hwt k' v'); [|done]. by rewrite lookup_insert_ne.
Qed.

Lemma well_typed_assigned now req_id level impl test notes e m (d : StatusData) :
  well_typed d → well_typed (assigned now req_id level impl test notes e m d).
Proof.
  intros Hwt. unfold assigned.
  apply well_typed_insert_other; [done|]. by apply well_typed_insert_entry.
Qed.

Lemma update_no_file now req_id level impl test notes w :
  UpdateStatus.STATUS_FILE w = None →
  UpdateStatus.update_requirement_status now req_id level impl test notes w =
  (Exit 1, {| UpdateStatus.STATUS_FILE := None;
              UpdateStatus.stdout :=
                UpdateStatus.stdout w
                ++ [UpdateStatus.MsgUpdating req_id level; UpdateStatus.ErrNoStatusFile] |}).
Proof. intros Hf. run_update. rewrite Hf. simpl. by rewrite <- app_assoc. Qed.

Lemma update_invalid_level now req_id level impl test notes w (d : StatusData) :
  UpdateStatus.STATUS_FILE w = Some d → ¬ (0 ≤ level ≤ 4)%Z →
  UpdateStatus.update_requirement_status now req_id level impl test notes w =
  (Return false,
   {| UpdateStatus.STATUS_FILE := Some d;
      UpdateStatus.stdout :=
        UpdateStatus.stdout w
        ++ [UpdateStatus.MsgUpdating req_id level; UpdateStatus.ErrInvalidLevel level] |}).
Proof.
  intros Hf Hl. apply level_not_choice in Hl. run_update. rewrite Hf, Hl. simpl.
  by rewrite <- app_assoc.
Qed.

Lemma update_unknown now req_id level impl test notes w (d : StatusData) :
  UpdateStatus.STATUS_FILE w = Some d → (0 ≤ level ≤ 4)%Z →
  d !! UpdateStatus.status_key req_id = None →
  UpdateStatus.update_requirement_status now req_id level impl test notes w =
  (Return false,
   {| UpdateStatus.STATUS_FILE := Some d;
      UpdateStatus.stdout :=
        UpdateStatus.stdout w
        ++ [UpdateStatus.MsgUpdating req_id level; UpdateStatus.ErrNotFound req_id] |}).
Proof.
  intros Hf Hl Hk. apply level_choice in Hl. run_update. rewrite Hf, Hl. simpl.
  rewrite Hk. simpl. by rewrite <- app_assoc.
Qed.

Lemma update_success now req_id level impl test notes w (d : StatusData) e m :
  UpdateStatus.STATUS_FILE w = Some d → (0 ≤ level ≤ 4)%Z →
  d !! UpdateStatus.status_key req_id = Some (VEntry e) →
  d !! "metadata" = Some (VMetadata m) →
  well_typed d →
  UpdateStatus.update_requirement_status now req_id level impl test notes w =
  (Return true,
   {| UpdateStatus.STATUS_FILE := Some (updated now req_id level impl test notes e m d);
      UpdateStatus.stdout :=
        UpdateStatus.stdout w
        ++ [UpdateStatus.MsgUpdating req_id level; UpdateStatus.MsgUpdated req_id level] |}).
Proof.
  intros Hf Hl Hk Hm Hwt. apply level_choice in Hl. run_update. rewrite Hf, Hl. simpl.
  rewrite Hk. rewrite lookup_insert_ne by apply update_key_not_metadata.
  rewrite Hm.
  pose proof (recalculate_statistics_closed (UpdateStatus.now_calculated now) _
                (well_typed_assigned now req_id level impl test notes e m d Hwt)) as Hr.
  unfold assigned in Hr. rewrite Hr. simpl.
  by rewrite <- app_assoc.
Qed.

(** The file changes only when the call returns [True]. *)
Lemma update_file_unchanged now req_id level impl test notes w :
  (UpdateStatus.update_requirement_status now req_id level impl test notes w).1
    ≠ Return true →
  UpdateStatus.STATUS_FILE
    (UpdateStatus.update_requirement_status now req_id level impl test notes w).2
  = UpdateStatus.STATUS_FILE w.
Proof.
  run_update. destruct (UpdateStatus.STATUS_FILE w) as [d|] eqn:Hf; simpl; [|done].
  destruct (bool_decide _); simpl; [|done].
  destruct (d !! UpdateStatus.status_key req_id) as [[?|?|?]|]; simpl; try done.
  destruct (_ !! "metadata") as [[?|?|?]|]; simpl; try done.
  destruct (UpdateStatus.recalculate_statistics _ _); simpl; done.
Qed.

Lemma well_typed_assigned_inv now req_id level impl test notes e m (d : StatusData) :
  d !! UpdateStatus.status_key req_id = Some (VEntry e) →
  well_typed (assigned now req_id level impl test notes e m d) → well_typed d.
Proof.
  intros Hk Hwt. unfold assigned in Hwt.
  apply well_typed_insert_other in Hwt; [|done].
  intros k v Hl Hp. destruct (decide (UpdateStatus.status_key req_id = k)) as [<-|Hne].
  - simplify_eq. eauto.
  - apply (Hwt k v); [|done]. by rewrite lookup_insert_ne.
Qed.

(** A call that returns [True] is one of the runs of [update_success]. *)
Lemma update_success_inv now req_id level impl test notes w w' (d : StatusData) :
  UpdateStatus.STATUS_FILE w = Some d →
  UpdateStatus.update_requirement_status now req_id level impl test notes w
    = (Return true, w') →
  ∃ e m,
    (0 ≤ level ≤ 4)%Z ∧
    d !! UpdateStatus.status_key req_id = Some (VEntry e) ∧
    d !! "metadata" = Some (VMetadata m) ∧
    well_typed d ∧
    w' = {| UpdateStatus.STATUS_FILE :=
              Some (updated now req_id level impl test notes e m d);
            UpdateStatus.stdout :=
              UpdateStatus.stdout w
              ++ [UpdateStatus.MsgUpdating req_id level;
                  UpdateStatus.MsgUpdated req_id level] |}.
Proof.
  intros Hf Hrun.
  destruct (decide (0 ≤ level ≤ 4)%Z) as [Hl|Hl];
    [|by rewrite (update_invalid_level _ _ _ _ _ _ _ d) in Hrun].
  destruct (d !! UpdateStatus.status_key req_id) as [v|] eqn:Hk;
    [|by rewrite (update_unknown _ _ _ _ _ _ _ d) in Hrun].
  assert (∃ e m, v = VEntry e ∧ d !! "metadata" = Some (VMetadata m) ∧
                 well_typed (assigned now req_id level impl test notes e m d))
    as (e & m & -> & Hm & Hwt).
  { revert Hrun. run_update. rewrite Hf. simpl.
    rewrite (proj2 (level_choice level) Hl). simpl. rewrite Hk.
    destruct v as [?|e|?]; simpl; try discriminate.
    rewrite lookup_insert_ne by apply update_key_not_metadata.
    destruct (d !! "metadata") as [[m|?|?]|]; simpl; try discriminate.
    destruct (UpdateStatus.recalculate_statistics _ _) as [d'| |] eqn:Hr;
      simpl; try discriminate.
    intros _. exists e, m. repeat split.
    by apply recalculate_statistics_return in Hr. }
  apply well_typed_assigned_inv in Hwt; [|done].
  rewrite (update_success _ _ _ _ _ _ _ d e m) in Hrun by done.
  exists e, m. by simplify_eq.
Qed.

Lemma ledger_wf_lookup (d : StatusData) :
  ledger_wf d ↔
  ∀ k e, d !! k = Some (VEntry e) → Py.startswith k "status." = true → entry_ok e.
Proof.
  unfold ledger_wf, map_Forall. split.
  - intros H k e Hk. apply (H k (VEntry e) Hk).
  - intros H k [?|e|?] Hk; simpl; eauto.
Qed.


(** ** The statistics block in closed form is derivable from the entries *)


(** The five buckets are an exhaustive partition of the entries. *)
Lemma count_at_partition es :
  Forall in_range es →
  count_at 0 es + count_at 1 es + count_at 2 es + count_at 3 es + count_at 4 es
  = length es.
Proof.
  induction 1 as [|e es He _ IH]; [done|].
  rewrite !count_at_cons. simpl. unfold in_range in He.
  repeat case_decide; lia.
Qed.





Lemma count_at_perm l es es' : es ≡ₚ es' → count_at l es = count_at l es'.
Proof. intros H. unfold count_at. by rewrite H. Qed.


Lemma statistics_consistent_perm st es es' :
  es ≡ₚ es' → statistics_consistent st es → statistics_consistent st es'.
Proof.
  intros H (H0 & H1 & H2 & H3 & H4 & Hc & Ha & Hp & Hv).
  unfold statistics_consistent.
  rewrite <- !(count_at_perm _ es es' H), <- (Permutation_length H).
  repeat split; try done. by rewrite <- H.
Qed.



(** ** The claims about the Status Updater *)



(** C3. A call with a level outside 0..4, or with a requirement id that has
    no entry in the Ledger, returns [False] and leaves the stored Ledger
    (every entry and the statistics) exactly as it was; in particular an
    invalid level is not clamped into the entry. *)
Theorem set_level_invalid_no_mutation
    now req_id level impl test notes w (d : StatusData) :
  UpdateStatus.STATUS_FILE w = Some d →
  ¬ (0 ≤ level ≤ 4)%Z ∨ d !! UpdateStatus.status_key req_id = None →
  (UpdateStatus.update_requirement_status now req_id level impl test notes w).1
    = Return false ∧
  UpdateStatus.STATUS_FILE
    (UpdateStatus.update_requirement_status now req_id level impl test notes w).2
    = Some d.
Proof.
  intros Hf Hbad.
  destruct (decide (0 ≤ level ≤ 4)%Z) as [Hl|Hl].
  - destruct Hbad as [?|Hk]; [done|].
    by rewrite (update_unknown _ _ _ _ _ _ _ d).
  - by rewrite (update_invalid_level _ _ _ _ _ _ _ d).
Qed.

Lemma set_level_invalid_no_mutation_witness :
  (UpdateStatus.update_requirement_status example_clock "7.3" 7
     EmptyString EmptyString EmptyString example_world).1 = Return false ∧
  UpdateStatus.STATUS_FILE
    (UpdateStatus.update_requirement_status example_clock "7.3" 7
       EmptyString EmptyString EmptyString example_world).2 = Some example_ledger.
Proof.
  apply (set_level_invalid_no_mutation example_clock "7.3" 7
           EmptyString EmptyString EmptyString example_world example_ledger).
  - reflexivity.
  - left. lia.
Defined.



(** ** Idempotence of the update up to timestamps *)











Lemma update_success_fst now req_id level impl test notes w (d : StatusData) :
  UpdateStatus.STATUS_FILE w = Some d →
  (UpdateStatus.update_requirement_status now req_id level impl test notes w).1
    = Return true →
  ∃ e m,
    (0 ≤ level ≤ 4)%Z ∧
    d !! UpdateStatus.status_key req_id = Some (VEntry e) ∧
    d !! "metadata" = Some (VMetadata m) ∧
    well_typed d.
Proof.
  intros Hf Hr.
  destruct (UpdateStatus.update_requirement_status now req_id level impl test notes w)
    as [o w'] eqn:Hrun.
  simpl in Hr. subst o.
  destruct (update_success_inv _ _ _ _ _ _ _ _ _ Hf Hrun) as (e & m & ? & ? & ? & ? & _).
  by exists e, m.
Qed.



(** ** Ledger initialisation *)

Lemma insert_sorted_perm {A} (le : A → A → bool) x l :
  Py.insert_sorted le x l ≡ₚ x :: l.
Proof.
  induction l as [|y l IH]; simpl; [done|].
  destruct (le x y); [done|]. rewrite IH. apply Permutation_swap.
Qed.

Lemma sorted_perm {A} (le : A → A → bool) l : Py.sorted le l ≡ₚ l.
Proof.
  unfold Py.sorted. induction l as [|x l IH]; simpl; [done|].
  by rewrite insert_sorted_perm, IH.
Qed.

Lemma extract_all_requirement_ids_perm matrix :
  CreateInitialStatus.extract_all_requirement_ids matrix ≡ₚ
  CreateInitialStatus.collect_ids matrix.
Proof. apply sorted_perm. Qed.

(** The dictionary after the loop of [create_initial_status]. *)
Lemma initial_loop_lookup (d0 : StatusData) ids k :
  foldl (λ (d : StatusData) req_id,
           <[CreateInitialStatus.status_key req_id :=
               VEntry CreateInitialStatus.initial_entry]> d) d0 ids !! k
  = if decide (k ∈ CreateInitialStatus.status_key <$> ids)
    then Some (VEntry CreateInitialStatus.initial_entry)
    else d0 !! k.
Proof.
  revert d0. induction ids as [|id ids IH]; intros d0.
  - cbn [foldl]. rewrite fmap_nil, decide_False; [done | apply not_elem_of_nil].
  - cbn [foldl]. rewrite IH, fmap_cons.
    destruct (decide (k ∈ CreateInitialStatus.status_key <$> ids)) as [Hin|Hin].
    + rewrite decide_True; [done | by right].
    + destruct (decide (k = CreateInitialStatus.status_key id)) as [->|Hne].
      * rewrite decide_True by by left. apply lookup_insert_eq.
      * rewrite decide_False by (by intros [?|?]%elem_of_cons).
        by apply lookup_insert_ne.
Qed.

Lemma initial_loop_entries (d0 : StatusData) ids :
  NoDup ids →
  (∀ id, id ∈ ids → d0 !! CreateInitialStatus.status_key id = None) →
  ledger_entries
    (foldl (λ (d : StatusData) req_id,
              <[CreateInitialStatus.status_key req_id :=
                  VEntry CreateInitialStatus.initial_entry]> d) d0 ids)
  ≡ₚ replicate (length ids) CreateInitialStatus.initial_entry ++ ledger_entries d0.
Proof.
  intros Hnd. revert d0. induction Hnd as [|id ids Hni Hnd IH]; intros d0 Hfresh; [done|].
  simpl. rewrite IH.
  - rewrite ledger_entries_insert_entry by apply initial_key_is_status.
    rewrite delete_id by (apply Hfresh; by left).
    by rewrite <- Permutation_middle.
  - intros i Hi. rewrite lookup_insert_ne.
    + apply Hfresh. by right.
    + intros Heq%initial_key_inj. by subst.
Qed.

(** [create_initial_status] in closed form. *)
Lemma create_initial_status_run now1 now2 matrix version total ids :
  CreateInitialStatus.matrix_get "metadata" matrix
    = Some (CreateInitialStatus.MMetadata version total) →
  ∃ (d : StatusData),
    CreateInitialStatus.create_initial_status now1 now2 matrix ids = Return d ∧
    (∀ id, id ∈ ids →
       d !! CreateInitialStatus.status_key id
       = Some (VEntry CreateInitialStatus.initial_entry)) ∧
    (∀ k e, d !! k = Some (VEntry e) →
       ∃ id, id ∈ ids ∧ k = CreateInitialStatus.status_key id
             ∧ e = CreateInitialStatus.initial_entry) ∧
    (∀ id, d !! UpdateStatus.status_key id = None) ∧
    d !! "statistics" =
      Some (VStatistics {| level_0_count := length ids; level_1_count := 0;
                           level_2_count := 0; level_3_count := 0;
                           level_4_count := 0; average_level := 0%Q;
                           compliance_percentage := 0%Q;
                           last_calculated := now2 |}) ∧
    (NoDup ids → length (ledger_entries d) = length ids).
Proof.
  intros Hm. unfold CreateInitialStatus.create_initial_status. rewrite Hm.
  eexists. split; [done|]. repeat split.
  - intros id Hid.
    rewrite lookup_insert_ne by (symmetry; apply initial_key_not_statistics).
    rewrite initial_loop_lookup, decide_True; [done|].
    by apply list_elem_of_fmap_2.
  - intros k e Hk.
    destruct (decide (k = "statistics")) as [->|Hne];
      [by rewrite lookup_insert_eq in Hk|].
    rewrite lookup_insert_ne, initial_loop_lookup in Hk by done.
    case_decide as Hin.
    + apply list_elem_of_fmap in Hin as (id & -> & Hid). simplify_eq. eauto.
    + destruct (decide (k = "metadata")) as [->|Hne'].
      * by rewrite lookup_singleton_eq in Hk.
      * by rewrite lookup_singleton_ne in Hk.
  - intros id.
    rewrite lookup_insert_ne by (symmetry; apply update_key_not_statistics).
    rewrite initial_loop_lookup, decide_False.
    + apply lookup_singleton_ne. symmetry. apply update_key_not_metadata.
    + intros (i & Hi & _)%list_elem_of_fmap. symmetry in Hi.
      by apply initial_key_not_update_key in Hi.
  - apply lookup_insert_eq.
  - intros Hnd. rewrite ledger_entries_insert_other by done.
    rewrite initial_loop_entries; [| done |].
    + rewrite length_app, length_replicate.
      unfold ledger_entries. rewrite map_to_list_singleton. simpl. lia.
    + intros id _. apply lookup_singleton_ne. symmetry. apply initial_key_not_metadata.
Qed.

Lemma initial_loop_dom (d0 : StatusData) ids :
  dom (foldl (λ (d : StatusData) req_id,
                <[CreateInitialStatus.status_key req_id :=
                    VEntry CreateInitialStatus.initial_entry]> d) d0 ids)
  = list_to_set (CreateInitialStatus.status_key <$> ids) ∪ dom d0.
Proof.
  revert d0. induction ids as [|id ids IH]; intros d0.
  - cbn [foldl]. rewrite fmap_nil. apply set_eq. intros k.
    rewrite elem_of_union, elem_of_list_to_set, elem_of_nil. tauto.
  - cbn [foldl]. rewrite IH, dom_insert_L, fmap_cons. apply set_eq. intros k.
    rewrite !elem_of_union, !elem_of_list_to_set, elem_of_cons, elem_of_singleton.
    tauto.
Qed.

(** An initialised Ledger satisfies the invariant of the entries. *)
Lemma initialize_ledger_wf now1 now2 matrix (d : StatusData) :
  CreateInitialStatus.initialize now1 now2 matrix = Return d → ledger_wf d.
Proof.
  intros Hinit. unfold CreateInitialStatus.initialize in Hinit.
  destruct (CreateInitialStatus.matrix_get "metadata" matrix) as [[version total| |]|] eqn:Hm;
    try (unfold CreateInitialStatus.create_initial_status in Hinit;
         rewrite Hm in Hinit; discriminate).
  destruct (create_initial_status_run now1 now2 matrix version total
              (CreateInitialStatus.extract_all_requirement_ids matrix) Hm)
    as (d' & Hrun & _ & Hout & _).
  rewrite Hrun in Hinit. injection Hinit as <-.
  apply ledger_wf_lookup. intros k e Hk _.
  destruct (Hout k e Hk) as (id & _ & _ & ->). by split.
Qed.



(** C6, as the code behaves.  Initialisation makes no check for repeated
    requirement ids and does not fail because of them: for every Matrix
    that has its metadata table it returns a Ledger whose keys are
    [metadata], [statistics] and one key for each distinct id, so that all
    the occurrences of a repeated id share a single level-0 entry. *)
Theorem initialize_collapses_duplicates now1 now2 matrix version total :
  CreateInitialStatus.matrix_get "metadata" matrix
    = Some (CreateInitialStatus.MMetadata version total) →
  ∃ (d : StatusData),
    CreateInitialStatus.initialize now1 now2 matrix = Return d ∧
    dom d = {[ "metadata"; "statistics" ]}
            ∪ list_to_set (CreateInitialStatus.status_key
                             <$> CreateInitialStatus.collect_ids matrix) ∧
    ∀ id, id ∈ CreateInitialStatus.collect_ids matrix →
          d !! CreateInitialStatus.status_key id
          = Some (VEntry CreateInitialStatus.initial_entry).
Proof.
  intros Hm.
  pose proof (extract_all_requirement_ids_perm matrix) as Hp.
  destruct (create_initial_status_run now1 now2 matrix version total
              (CreateInitialStatus.extract_all_requirement_ids matrix) Hm)
    as (d & Hrun & Hin & _).
  exists d. split; [done|]. split.
  - unfold CreateInitialStatus.initialize,
      CreateInitialStatus.create_initial_status in Hrun.
    rewrite Hm in Hrun. injection Hrun as <-.
    rewrite dom_insert_L, initial_loop_dom, dom_singleton_L.
    apply set_eq. intros k.
    rewrite !elem_of_union, !elem_of_list_to_set, !elem_of_singleton.
    rewrite Hp. tauto.
  - intros id Hid. apply Hin. by rewrite Hp.
Qed.

Lemma initialize_collapses_duplicates_witness :
  ∃ (d : StatusData),
    CreateInitialStatus.initialize "2025-08-20T08:00:00" "2025-08-20T08:00:01"
      duplicate_matrix = Return d ∧
    dom d = {[ "metadata"; "statistics" ]}
            ∪ list_to_set (CreateInitialStatus.status_key
                             <$> CreateInitialStatus.collect_ids duplicate_matrix) ∧
    ∀ id, id ∈ CreateInitialStatus.collect_ids duplicate_matrix →
          d !! CreateInitialStatus.status_key id
          = Some (VEntry CreateInitialStatus.initial_entry).
Proof.
  apply (initialize_collapses_duplicates _ _ duplicate_matrix "2025-08-20" 2).
  reflexivity.
Defined.

(** C6, as stated, fails: a Matrix in which the id 7.3 occurs twice is
    initialised without any error, and the two occurrences end up in one
    entry. *)
Lemma initialize_accepts_duplicates :
  CreateInitialStatus.collect_ids duplicate_matrix = ["7.3"; "7.3"] ∧
  ∃ (d : StatusData),
    CreateInitialStatus.initialize "2025-08-20T08:00:00" "2025-08-20T08:00:01"
      duplicate_matrix = Return d ∧
    ledger_entries d = [CreateInitialStatus.initial_entry].
Proof. split; [reflexivity|]. eexists. split; [reflexivity|]. vm_compute. reflexivity. Qed.

(** ** The updater after the initialiser *)

(** No key of an initialised Ledger is a key the updater looks up, so an
    update of an initialised Ledger never finds its requirement. *)
Lemma set_level_never_finds_initialized
    now1 now2 matrix (d : StatusData) now req_id level impl test notes w :
  CreateInitialStatus.initialize now1 now2 matrix = Return d →
  UpdateStatus.STATUS_FILE w = Some d →
  (0 ≤ level ≤ 4)%Z →
  UpdateStatus.update_requirement_status now req_id level impl test notes w
  = (Return false,
     {| UpdateStatus.STATUS_FILE := Some d;
        UpdateStatus.stdout :=
          UpdateStatus.stdout w
          ++ [UpdateStatus.MsgUpdating req_id level; UpdateStatus.ErrNotFound req_id] |}).
Proof.
  intros Hinit Hf Hl. apply update_unknown; [done | done |].
  unfold CreateInitialStatus.initialize in Hinit.
  destruct (CreateInitialStatus.matrix_get "metadata" matrix) as [[version total| |]|] eqn:Hm;
    try (unfold CreateInitialStatus.create_initial_status in Hinit;
         rewrite Hm in Hinit; discriminate).
  destruct (create_initial_status_run now1 now2 matrix version total
              (CreateInitialStatus.extract_all_requirement_ids matrix) Hm)
    as (d' & Hrun & _ & _ & Hnone & _).
  rewrite Hrun in Hinit. injection Hinit as <-. apply Hnone.
Qed.

(** C1, on the code.  The Ledger initialised from a Matrix with the
    requirements 7.5.2.1 and 7.3 has an entry for 7.3, and
    [set_level('7.3', 3)] on it prints that the requirement was not found
    and returns [False]: the initialiser stores the entry under the key
    [status."7.3"], the updater looks for a key with seven backslashes
    before each quote. *)
Theorem set_level_after_initialize_not_found :
  ∃ (d : StatusData),
    CreateInitialStatus.initialize "2025-08-20T08:00:00" "2025-08-20T08:00:01"
      example_matrix = Return d ∧
    d !! CreateInitialStatus.status_key "7.3"
      = Some (VEntry CreateInitialStatus.initial_entry) ∧
    UpdateStatus.update_requirement_status example_clock "7.3" 3
      EmptyString EmptyString EmptyString
      {| UpdateStatus.STATUS_FILE := Some d; UpdateStatus.stdout := [] |}
    = (Return false,
       {| UpdateStatus.STATUS_FILE := Some d;
          UpdateStatus.stdout :=
            [UpdateStatus.MsgUpdating "7.3" 3; UpdateStatus.ErrNotFound "7.3"] |}).
Proof.
  eexists. split; [reflexivity|]. split; [by vm_compute|].
  by apply (set_level_never_finds_initialized
              "2025-08-20T08:00:00" "2025-08-20T08:00:01" example_matrix).
Qed.

(** ** The command line of the updater *)

Ltac run_main :=
  unfold UpdateStatus.main, UpdateStatus.parse_args_check,
    UpdateStatus.show_overall_statistics, UpdateStatus.show_requirement_status,
    UpdateStatus.update_requirement_status, UpdateStatus.load_current_status,
    UpdateStatus.bind, UpdateStatus.print, UpdateStatus.read_status_file,
    UpdateStatus.sys_exit, UpdateStatus.ret, UpdateStatus.lift.

(** With a Ledger file that has no entry for 9.9.9, the command
    [--req-id 9.9.9 --level 3] prints that the requirement was not found,
    on standard output, leaves the file as it is, and ends with exit
    status 0: [main] drops the [False] that [update_requirement_status]
    returns. *)
Lemma main_unknown_id_exit_status :
  exit_status (UpdateStatus.main example_clock (update_args "9.9.9" 3) example_world).1 = 0%Z ∧
  UpdateStatus.stdout (UpdateStatus.main example_clock (update_args "9.9.9" 3) example_world).2
    = [UpdateStatus.MsgUpdating "9.9.9" 3; UpdateStatus.ErrNotFound "9.9.9"] ∧
  UpdateStatus.STATUS_FILE
    (UpdateStatus.main example_clock (update_args "9.9.9" 3) example_world).2
    = Some example_ledger.
Proof. by vm_compute. Qed.

(** C8, as stated, fails: the command [--req-id 7.3 --level 7] ends with
    exit status 2, not 1; the level is rejected by the argument parser
    before [main] looks at the Ledger. *)
Lemma main_invalid_level_exit_status_2 :
  UpdateStatus.main example_clock (update_args "7.3" 7) example_world
    = (Exit 2, example_world) ∧
  exit_status (UpdateStatus.main example_clock (update_args "7.3" 7) example_world).1
    ≠ 1%Z.
Proof. by vm_compute. Qed.

(** C8, as the code behaves.  A [--level] outside 0..4 is rejected by the
    argument parser with exit status 2 and nothing is printed on standard
    output or written.  With a valid command line that reads the Ledger
    ([--stats], [--show], or [--req-id] with [--level]), a missing Ledger
    file ends the command with exit status 1 after the error message.  An
    update that succeeds ends with exit status 0. *)
Theorem main_exit_status now args w :
  (∀ l, UpdateStatus.arg_level args = Some l → ¬ (0 ≤ l ≤ 4)%Z →
        UpdateStatus.main now args w = (Exit 2, w)) ∧
  ((∀ l, UpdateStatus.arg_level args = Some l → (0 ≤ l ≤ 4)%Z) →
   UpdateStatus.stats args = true ∨ UpdateStatus.given (UpdateStatus.show args) = true ∨
     (UpdateStatus.given (UpdateStatus.req_id args) = true
      ∧ is_Some (UpdateStatus.arg_level args)) →
   UpdateStatus.STATUS_FILE w = None →
   exit_status (UpdateStatus.main now args w).1 = 1%Z ∧
   UpdateStatus.STATUS_FILE (UpdateStatus.main now args w).2 = None ∧
   UpdateStatus.ErrNoStatusFile ∈ UpdateStatus.stdout (UpdateStatus.main now args w).2) ∧
  (∀ l, UpdateStatus.stats args = false →
        UpdateStatus.given (UpdateStatus.show args) = false →
        UpdateStatus.given (UpdateStatus.req_id args) = true →
        UpdateStatus.arg_level args = Some l →
        (UpdateStatus.update_requirement_status now
           (UpdateStatus.or_empty (UpdateStatus.req_id args)) l
           (UpdateStatus.or_empty (UpdateStatus.arg_implementation args))
           (UpdateStatus.or_empty (UpdateStatus.arg_test_file args))
           (UpdateStatus.or_empty (UpdateStatus.arg_notes args)) w).1 = Return true →
        exit_status (UpdateStatus.main now args w).1 = 0%Z).
Proof.
  split; [|split].
  - intros l Hl Hbad. apply level_not_choice in Hbad.
    unfold UpdateStatus.main, UpdateStatus.parse_args_check, UpdateStatus.bind,
      UpdateStatus.sys_exit. by rewrite Hl, Hbad.
  - intros Hok Hmode Hf.
    assert (Hcheck : UpdateStatus.parse_args_check args w = (Return tt, w)).
    { unfold UpdateStatus.parse_args_check.
      destruct (UpdateStatus.arg_level args) as [l|]; [|done].
      by rewrite (proj2 (level_choice l) (Hok l eq_refl)). }
    assert (∃ out, UpdateStatus.main now args w
                   = (Exit 1, {| UpdateStatus.STATUS_FILE := None;
                                 UpdateStatus.stdout :=
                                   UpdateStatus.stdout w
                                   ++ out ++ [UpdateStatus.ErrNoStatusFile] |}))
      as [out ->].
    { unfold UpdateStatus.main, UpdateStatus.bind. rewrite Hcheck.
      destruct (UpdateStatus.stats args).
      { exists []. unfold UpdateStatus.show_overall_statistics,
          UpdateStatus.load_current_status, UpdateStatus.bind,
          UpdateStatus.read_status_file, UpdateStatus.print, UpdateStatus.sys_exit.
        rewrite Hf. simpl. by rewrite Hf. }
      destruct (UpdateStatus.given (UpdateStatus.show args)).
      { exists []. unfold UpdateStatus.show_requirement_status,
          UpdateStatus.load_current_status, UpdateStatus.bind,
          UpdateStatus.read_status_file, UpdateStatus.print, UpdateStatus.sys_exit.
        rewrite Hf. simpl. by rewrite Hf. }
      destruct Hmode as [?|[?|[Hid [l Hl]]]]; try done.
      rewrite Hl, Hid. rewrite update_no_file by done.
      by eexists [_]. }
    simpl. repeat split. set_unfold. eauto.
  - intros l Hs Hshow Hid Hl Hrun.
    assert (Hrange : (0 ≤ l ≤ 4)%Z).
    { destruct (UpdateStatus.STATUS_FILE w) as [d|] eqn:Hf.
      - by destruct (update_success_fst _ _ _ _ _ _ _ _ Hf Hrun) as (? & ? & ? & _).
      - by rewrite update_no_file in Hrun. }
    unfold UpdateStatus.main, UpdateStatus.parse_args_check, UpdateStatus.bind at 1.
    rewrite Hl, (proj2 (level_choice l) Hrange). unfold UpdateStatus.ret at 1.
    rewrite Hs, Hshow, Hid. unfold UpdateStatus.bind at 1.
    destruct (UpdateStatus.update_requirement_status _ _ _ _ _ _ _) as [o w'].
    simpl in Hrun. by subst o.
Qed.

(** Instances of the three parts: level 7, a missing Ledger file, and a
    successful update. *)
Lemma main_exit_status_witness :
  UpdateStatus.main example_clock (update_args "7.3" 7) example_world
    = (Exit 2, example_world) ∧
  exit_status
    (UpdateStatus.main example_clock (update_args "7.3" 3)
       {| UpdateStatus.STATUS_FILE := None; UpdateStatus.stdout := [] |}).1 = 1%Z ∧
  exit_status (UpdateStatus.main example_clock (update_args "7.3" 3) example_world).1
    = 0%Z.
Proof.
  split; [|split].
  - apply (proj1 (main_exit_status example_clock (update_args "7.3" 7) example_world) 7%Z).
    + reflexivity.
    + lia.
  - apply (proj1 (proj2 (main_exit_status example_clock (update_args "7.3" 3)
             {| UpdateStatus.STATUS_FILE := None; UpdateStatus.stdout := [] |}))).
    + intros l [= <-]. lia.
    + right. right. split; [reflexivity | by eexists].
    + reflexivity.
  - apply (proj2 (proj2 (main_exit_status example_clock (update_args "7.3" 3)
             example_world)) 3%Z); reflexivity || (vm_compute; reflexivity).
Defined.

(** ** The recent-activity table *)

(** A timestamp of this or the last millennium sorts before ['never']. *)
Lemma timestamp_leb_never (ts : string) :
  Py.startswith ts "1" = true ∨ Py.startswith ts "2" = true →
  String.leb ts "never" = true ∧ String.leb "never" ts = false.
Proof.
  destruct ts as [|c ts]; [by intros [?|?]|].
  intros [H|H]; unfold Py.startswith in H; cbn [String.prefix] in H.
  - destruct (ascii_dec "1" c) as [<-|]; [|discriminate].
    split; reflexivity.
  - destruct (ascii_dec "2" c) as [<-|]; [|discriminate].
    split; reflexivity.
Qed.

(** C7, on the code.  With one requirement checked on 2025-08-21 and one
    never checked, the first row of the recent-activity table is the
    requirement whose [last_checked] is ['never']: the sort is on the
    strings, descending, and ['never'] is above every timestamp. *)
Theorem recent_activity_never_first :
  ComplianceReport.recent_activity report_ledger =
  [ {| ComplianceReport.upd_req_id := "7.5.2.1";
       ComplianceReport.upd_level := 0;
       ComplianceReport.upd_last_checked := "never";
       ComplianceReport.upd_notes := "Pendiente de verificación" |};
    {| ComplianceReport.upd_req_id := "7.3";
       ComplianceReport.upd_level := 3;
       ComplianceReport.upd_last_checked := "2025-08-21T10:00:00.000001";
       ComplianceReport.upd_notes := "Catalog verified" |} ].
Proof. by vm_compute. Qed.

(** ** The evidence score *)

(** A keyword that is not in a text occurs zero times in it. *)
Lemma count_from_not_contained sub s skip :
  Py.contains sub s = false → Py.count_from skip sub s = 0.
Proof.
  revert skip. induction s as [|c s IH]; intros skip H; simpl in H;
    apply orb_false_iff in H as [Hp Hc].
  - destruct skip; simpl; [by rewrite Hp | done].
  - destruct skip; simpl; [rewrite Hp|]; by apply IH.
Qed.

Lemma add_evidence_sum keyword score file_content :
  ComplianceAnalyzer.add_evidence keyword score file_content
  = score + Nat.min (Py.count file_content keyword) 5.
Proof.
  unfold ComplianceAnalyzer.add_evidence.
  destruct (Py.contains keyword file_content) eqn:Hc; [done|].
  unfold Py.count. rewrite count_from_not_contained by done. simpl. lia.
Qed.

Lemma sum_list_append (l1 l2 : list nat) :
  sum_list (l1 ++ l2)%list = sum_list l1 + sum_list l2.
Proof. induction l1 as [|x l1 IH]; simpl; [done | rewrite IH; lia]. Qed.

Lemma file_loop_sum keyword file_contents score :
  foldl (ComplianceAnalyzer.add_evidence keyword) score file_contents
  = score + sum_list (file_content ← file_contents;
                      [Nat.min (Py.count file_content keyword) 5]).
Proof.
  revert score. induction file_contents as [|f fs IH]; intros score.
  - simpl. lia.
  - cbn [foldl]. rewrite IH, add_evidence_sum, bind_cons, sum_list_append. simpl. lia.
Qed.

Lemma scan_sum keywords file_contents score :
  ComplianceAnalyzer.scan keywords file_contents score
  = score + spec_score 5 keywords file_contents.
Proof.
  unfold ComplianceAnalyzer.scan, spec_score. revert score.
  induction keywords as [|k ks IH]; intros score.
  - simpl. lia.
  - cbn [foldl]. rewrite IH, file_loop_sum, bind_cons, sum_list_append. lia.
Qed.



(** The scenario of the design: one file with five occurrences of
    [catalog] scores 5, which the thresholds of the source classify as
    missing. *)
Example evidence_score_catalog :
  let req := {| ComplianceAnalyzer.keywords := ["catalog"];
                ComplianceAnalyzer.text := "the catalog" |} in
  let files : gmap string string :=
    {[ "document.rs" := "catalog catalog catalog catalog catalog" ]} in
  ComplianceAnalyzer._calculate_evidence_score (λ _, []) (λ s, s) (λ _, []) files req = 5
  ∧ ComplianceAnalyzer.classify 5 = ComplianceAnalyzer.missing.
Proof. by vm_compute. Qed.

(** ** The scenario of the design on the Status Updater *)

(** With A at level 4, B at level 2 and C left at level 0, the stored
    average level is 2.0 and the compliance percentage 50.0. *)
Example scenario_statistics :
  let w0 := {| UpdateStatus.STATUS_FILE := Some scenario_ledger;
               UpdateStatus.stdout := [] |} in
  let w1 := (UpdateStatus.update_requirement_status example_clock "A" 4
               EmptyString EmptyString EmptyString w0).2 in
  let w2 := (UpdateStatus.update_requirement_status later_clock "B" 2
               EmptyString EmptyString EmptyString w1).2 in
  ∃ st, stored_statistics w2 = Some st ∧
        (level_0_count st, level_1_count st, level_2_count st,
         level_3_count st, level_4_count st) = (1, 0, 1, 0, 1) ∧
        (average_level st == 2)%Q ∧ (compliance_percentage st == 50)%Q.
Proof. eexists. split; [by vm_compute|]. by vm_compute. Qed.

(** ** Further properties of the Status Updater *)

Lemma parse_args_check_cases args w :
  UpdateStatus.parse_args_check args w = (Return tt, w) ∨
  UpdateStatus.parse_args_check args w = (Exit 2, w).
Proof.
  unfold UpdateStatus.parse_args_check.
  destruct (UpdateStatus.arg_level args) as [l|]; [|by left].
  destruct (bool_decide _); [by left | by right].
Qed.

Lemma show_overall_statistics_file w :
  UpdateStatus.STATUS_FILE (UpdateStatus.show_overall_statistics w).2
  = UpdateStatus.STATUS_FILE w.
Proof.
  unfold UpdateStatus.show_overall_statistics, UpdateStatus.load_current_status,
    UpdateStatus.bind, UpdateStatus.read_status_file, UpdateStatus.print,
    UpdateStatus.sys_exit, UpdateStatus.ret, UpdateStatus.lift.
  destruct (UpdateStatus.STATUS_FILE w) as [d|] eqn:Hf; simpl; [|done].
  destruct (d !! "statistics") as [[?|?|?]|]; simpl; done.
Qed.

Lemma show_requirement_status_file req_id w :
  UpdateStatus.STATUS_FILE (UpdateStatus.show_requirement_status req_id w).2
  = UpdateStatus.STATUS_FILE w.
Proof.
  unfold UpdateStatus.show_requirement_status, UpdateStatus.load_current_status,
    UpdateStatus.bind, UpdateStatus.read_status_file, UpdateStatus.print,
    UpdateStatus.sys_exit, UpdateStatus.ret, UpdateStatus.lift.
  destruct (UpdateStatus.STATUS_FILE w) as [d|] eqn:Hf; simpl; [|done].
  destruct (filter _ _); simpl;
    destruct (d !! UpdateStatus.status_key req_id) as [[?|?|?]|]; simpl; done.
Qed.

(** X1. The command line changes the Ledger file only through an update
    that returns [True]: [--stats], [--show], the usage text, a command
    line the argument parser rejects and an update that fails all leave
    the file exactly as it was (in particular a missing file is never
    created). *)
Theorem main_writes_only_on_successful_update now args w :
  UpdateStatus.STATUS_FILE (UpdateStatus.main now args w).2 = UpdateStatus.STATUS_FILE w ∨
  (UpdateStatus.stats args = false ∧
   UpdateStatus.given (UpdateStatus.show args) = false ∧
   UpdateStatus.given (UpdateStatus.req_id args) = true ∧
   ∃ l, UpdateStatus.arg_level args = Some l ∧
        (UpdateStatus.update_requirement_status now
           (UpdateStatus.or_empty (UpdateStatus.req_id args)) l
           (UpdateStatus.or_empty (UpdateStatus.arg_implementation args))
           (UpdateStatus.or_empty (UpdateStatus.arg_test_file args))
           (UpdateStatus.or_empty (UpdateStatus.arg_notes args)) w).1 = Return true).
Proof.
  unfold UpdateStatus.main. unfold UpdateStatus.bind at 1.
  destruct (parse_args_check_cases args w) as [-> | ->]; [|by left].
  destruct (UpdateStatus.stats args); [left; apply show_overall_statistics_file|].
  destruct (UpdateStatus.given (UpdateStatus.show args));
    [left; apply show_requirement_status_file|].
  destruct (UpdateStatus.arg_level args) as [l|]; [|by left].
  destruct (UpdateStatus.given (UpdateStatus.req_id args)); [|by left].
  unfold UpdateStatus.bind.
  pose proof (update_file_unchanged now
                (UpdateStatus.or_empty (UpdateStatus.req_id args)) l
                (UpdateStatus.or_empty (UpdateStatus.arg_implementation args))
                (UpdateStatus.or_empty (UpdateStatus.arg_test_file args))
                (UpdateStatus.or_empty (UpdateStatus.arg_notes args)) w) as Hun.
  destruct (UpdateStatus.update_requirement_status _ _ _ _ _ _ _) as [[[|]| |] w']
    eqn:Hrun; simpl in *.
  - right. split; [done|]. split; [done|]. split; [done|]. exists l.
    split; [done|]. by rewrite Hrun.
  - left. by apply Hun.
  - left. by apply Hun.
  - left. by apply Hun.
Qed.




(** ** Further properties of [recalculate_statistics] *)

Lemma round_half_even_bounds (y : Q) (L H : Z) :
  (inject_Z L <= y)%Q → (y <= inject_Z H)%Q →
  (L ≤ Py.round_half_even y ≤ H)%Z.
Proof.
  intros HL HH.
  pose proof (Qfloor_le y) as Hlo.
  assert (HLf : (L ≤ Qfloor y)%Z).
  { rewrite <- (Qfloor_Z L). by apply Qfloor_resp_le. }
  assert (HfH : (Qfloor y ≤ H)%Z).
  { rewrite <- (Qfloor_Z H). by apply Qfloor_resp_le. }
  assert (Hstep : (1 # 2 <= y - inject_Z (Qfloor y))%Q → (Qfloor y + 1 ≤ H)%Z).
  { intros Hhalf. destruct (decide (Qfloor y = H)) as [Heq|Hne]; [|lia].
    rewrite Heq in Hhalf. lra. }
  unfold Py.round_half_even.
  destruct (Qcompare_spec (y - inject_Z (Qfloor y)) (1 # 2)) as [He|Hl|Hg].
  - assert ((Qfloor y + 1 ≤ H)%Z) by (apply Hstep; lra).
    destruct (Z.even (Qfloor y)); lia.
  - lia.
  - assert ((Qfloor y + 1 ≤ H)%Z) by (apply Hstep; lra). lia.
Qed.

(** Rounding to [n] decimals does not leave an interval with integer
    ends. *)
Lemma round_bounds (x : Q) (n : nat) (lo hi : Z) :
  (inject_Z lo <= x)%Q → (x <= inject_Z hi)%Q →
  (inject_Z lo <= Py.round x n)%Q ∧ (Py.round x n <= inject_Z hi)%Q.
Proof.
  intros Hlo Hhi. unfold Py.round.
  assert (Hs : (0 < 10 ^ Z.of_nat n)%Z) by (apply Z.pow_pos_nonneg; lia).
  set (s := (10 ^ Z.of_nat n)%Z) in *.
  assert (Hsq : (0 <= inject_Z s)%Q) by (unfold Qle; simpl; lia).
  destruct (round_half_even_bounds (x * inject_Z s) (lo * s) (hi * s)) as [H1 H2].
  { rewrite inject_Z_mult. by apply Qmult_le_compat_r. }
  { rewrite inject_Z_mult. by apply Qmult_le_compat_r. }
  unfold Qle. simpl. rewrite !Z2Pos.id by done. lia.
Qed.

Lemma Forall_filter_in_range es : Forall in_range (filter in_range es).
Proof.
  induction es as [|e es IH]; [constructor|].
  rewrite filter_in_range_cons. case_decide; [by constructor | done].
Qed.

Lemma count_at_filter_in_range l es :
  (0 ≤ l ≤ 4)%Z → count_at l (filter in_range es) = count_at l es.
Proof.
  intros Hl. induction es as [|e es IH]; [done|].
  rewrite filter_in_range_cons, (count_at_cons l e es).
  destruct (decide (in_range e)) as [Hr|Hr].
  - by rewrite count_at_cons, IH.
  - rewrite IH, decide_False; [done|]. unfold in_range in Hr. lia.
Qed.

Lemma sum_levels_bounds es :
  Forall in_range es → (0 ≤ sum_levels es ≤ 4 * Z.of_nat (length es))%Z.
Proof.
  induction 1 as [|e es He _ IH]; simpl; [lia|]. unfold in_range in He. lia.
Qed.

Lemma average_of_bounds es : (0 <= average_of es)%Q ∧ (average_of es <= 4)%Q.
Proof.
  unfold average_of.
  pose proof (sum_levels_bounds _ (Forall_filter_in_range es)) as [Hs0 Hs4].
  destruct (0 <? length (filter in_range es))%nat eqn:Hn; [|split; lra].
  apply Nat.ltb_lt in Hn.
  assert (Hpos : (0 < inject_Z (Z.of_nat (length (filter in_range es))))%Q).
  { unfold Qlt. simpl. lia. }
  split.
  - apply Qle_shift_div_l; [done|]. rewrite Qmult_0_l. unfold Qle. simpl. lia.
  - apply Qle_shift_div_r; [done|].
    change 4%Q with (inject_Z 4). rewrite <- inject_Z_mult, <- Zle_Qle. lia.
Qed.

(** X4. [recalculate_statistics] ends normally exactly on a dictionary in
    which every [status.] key holds a table with a level.  It then
    replaces the [statistics] table and nothing else; bucket [i] counts
    the entries at level [i], and an entry whose level is outside 0..4 is
    in no bucket and is left out of the total. *)
Theorem recalculate_statistics_counts now (d : StatusData) :
  (well_typed d ↔ ∃ d', UpdateStatus.recalculate_statistics now d = Return d') ∧
  ∀ d', UpdateStatus.recalculate_statistics now d = Return d' →
    ∃ st,
      d' = <["statistics" := VStatistics st]> d ∧
      level_0_count st = count_at 0 (ledger_entries d) ∧
      level_1_count st = count_at 1 (ledger_entries d) ∧
      level_2_count st = count_at 2 (ledger_entries d) ∧
      level_3_count st = count_at 3 (ledger_entries d) ∧
      level_4_count st = count_at 4 (ledger_entries d) ∧
      counted st = length (filter in_range (ledger_entries d)) ∧
      last_calculated st = now.
Proof.
  split.
  - split.
    + intros Hwt. eexists. by apply recalculate_statistics_closed.
    + intros [d' Hr]. by eapply recalculate_statistics_return.
  - intros d' Hr.
    pose proof (recalculate_statistics_return _ _ _ Hr) as Hwt.
    rewrite (recalculate_statistics_closed now d Hwt) in Hr. injection Hr as <-.
    eexists. split; [done|]. repeat split.
    unfold counted. simpl.
    rewrite <- (count_at_partition _ (Forall_filter_in_range (ledger_entries d))).
    by rewrite !count_at_filter_in_range by lia.
Qed.

Lemma statistics_of_bounds now es :
  (0 <= average_level (statistics_of now es))%Q ∧
  (average_level (statistics_of now es) <= 4)%Q ∧
  (0 <= compliance_percentage (statistics_of now es))%Q ∧
  (compliance_percentage (statistics_of now es) <= 100)%Q.
Proof.
  destruct (average_of_bounds es) as [Ha0 Ha4].
  unfold statistics_of. cbn [average_level compliance_percentage].
  destruct (round_bounds (average_of es) 3 0 4) as [H1 H2]; [done..|].
  assert (Hp : (0 <= average_of es / 4 * 100)%Q ∧ (average_of es / 4 * 100 <= 100)%Q).
  { clear H1 H2. set (a := average_of es) in *. clearbody a.
    unfold Qdiv. change (/ 4)%Q with (1 # 4)%Q. split; lra. }
  destruct Hp as [Hp0 Hp100].
  destruct (round_bounds (average_of es / 4 * 100)%Q 2 0 100) as [H3 H4]; [done..|].
  done.
Qed.

(** X5. The statistics [recalculate_statistics] stores are within bounds:
    the average level is between 0 and 4 and the compliance percentage
    between 0 and 100, whatever the levels found in the file. *)
Theorem recalculate_statistics_bounds now (d d' : StatusData) :
  UpdateStatus.recalculate_statistics now d = Return d' →
  ∃ st, d' !! "statistics" = Some (VStatistics st) ∧
        (0 <= average_level st)%Q ∧ (average_level st <= 4)%Q ∧
        (0 <= compliance_percentage st)%Q ∧ (compliance_percentage st <= 100)%Q.
Proof.
  intros Hr.
  pose proof (recalculate_statistics_return _ _ _ Hr) as Hwt.
  rewrite (recalculate_statistics_closed now d Hwt) in Hr. injection Hr as <-.
  eexists. split; [apply lookup_insert_eq|].
  apply statistics_of_bounds.
Qed.

Lemma recalculate_statistics_bounds_witness :
  ∃ st, <["statistics" := VStatistics
            (statistics_of "2025-08-21T10:00:00" (ledger_entries example_ledger))]>
          example_ledger !! "statistics" = Some (VStatistics st) ∧
        (0 <= average_level st)%Q ∧ (average_level st <= 4)%Q ∧
        (0 <= compliance_percentage st)%Q ∧ (compliance_percentage st <= 100)%Q.
Proof.
  apply (recalculate_statistics_bounds "2025-08-21T10:00:00" example_ledger).
  vm_compute. reflexivity.
Defined.

(** ** The statistics and progress sections of the report *)

Lemma int_of_float_fifth (compliance_pct : Q) :
  (0 <= compliance_pct)%Q → (compliance_pct <= 100)%Q →
  ReportBody.int_of_float (compliance_pct / 5) = Qfloor (compliance_pct / 5) ∧
  (0 ≤ Qfloor (compliance_pct / 5) ≤ 20)%Z.
Proof.
  intros H0 H100.
  assert (Hq : (0 <= compliance_pct / 5)%Q ∧ (compliance_pct / 5 <= 20)%Q).
  { unfold Qdiv. change (/ 5)%Q with (1 # 5)%Q. split; lra. }
  destruct Hq as [Hq0 Hq20]. split.
  - unfold ReportBody.int_of_float.
    by rewrite (proj2 (Qle_bool_iff 0 (compliance_pct / 5)) Hq0).
  - split.
    + rewrite <- (Qfloor_Z 0). by apply Qfloor_resp_le.
    + rewrite <- (Qfloor_Z 20). by apply Qfloor_resp_le.
Qed.

Lemma progress_bar_length (compliance_pct : Q) :
  (0 <= compliance_pct)%Q → (compliance_pct <= 100)%Q →
  length (ReportBody.progress_bar compliance_pct) = 20.
Proof.
  intros H0 H100.
  destruct (int_of_float_fifth compliance_pct H0 H100) as [Hint [Hn0 Hn20]].
  unfold ReportBody.progress_bar. rewrite Hint.
  rewrite length_app, !length_replicate. lia.
Qed.

(** X6. For a compliance percentage between 0 and 100 the progress bar
    has exactly 20 cells: [k] full blocks followed by [20 - k] light ones,
    where [k] is the number of whole steps of 5 in the percentage. *)
Theorem progress_bar_width (compliance_pct : Q) :
  (0 <= compliance_pct)%Q → (compliance_pct <= 100)%Q →
  length (ReportBody.progress_bar compliance_pct) = 20 ∧
  ∃ k : nat, (k ≤ 20)%nat ∧
       ReportBody.progress_bar compliance_pct
       = (replicate k ReportBody.Full ++ replicate (20 - k) ReportBody.Light)%list ∧
       (inject_Z (5 * Z.of_nat k) <= compliance_pct)%Q ∧
       (compliance_pct < inject_Z (5 * Z.of_nat k + 5))%Q.
Proof.
  intros H0 H100. split; [by apply progress_bar_length|].
  destruct (int_of_float_fifth compliance_pct H0 H100) as [Hint [Hn0 Hn20]].
  pose proof (Qfloor_le (compliance_pct / 5)) as Hlo.
  pose proof (Qlt_floor (compliance_pct / 5)) as Hhi.
  unfold ReportBody.progress_bar. rewrite Hint.
  set (n := Qfloor (compliance_pct / 5)) in *.
  exists (Z.to_nat n). split; [lia|]. split.
  - do 2 f_equal. lia.
  - rewrite Z2Nat.id by lia.
    rewrite inject_Z_plus, inject_Z_mult in *.
    change (inject_Z 5) with 5%Q. change (inject_Z 1) with 1%Q in Hhi.
    unfold Qdiv in Hlo, Hhi. change (/ 5)%Q with (1 # 5)%Q in Hlo, Hhi.
    set (q := inject_Z n) in *. clearbody q. split; lra.
Qed.

Lemma progress_bar_width_witness :
  length (ReportBody.progress_bar 50) = 20 ∧
  ∃ k : nat, (k ≤ 20)%nat ∧
       ReportBody.progress_bar 50
       = (replicate k ReportBody.Full ++ replicate (20 - k) ReportBody.Light)%list ∧
       (inject_Z (5 * Z.of_nat k) <= 50)%Q ∧
       (50 < inject_Z (5 * Z.of_nat k + 5))%Q.
Proof. apply (progress_bar_width 50); by vm_compute. Defined.

(** X7. The progress bar drawn from the statistics that
    [recalculate_statistics] stored always has exactly 20 cells. *)
Theorem progress_bar_of_recalculated now (d d' : StatusData) st :
  UpdateStatus.recalculate_statistics now d = Return d' →
  d' !! "statistics" = Some (VStatistics st) →
  length (ReportBody.progress_bar (compliance_percentage st)) = 20.
Proof.
  intros Hr Hst.
  pose proof (recalculate_statistics_return _ _ _ Hr) as Hwt.
  rewrite (recalculate_statistics_closed now d Hwt) in Hr. injection Hr as <-.
  rewrite lookup_insert_eq in Hst. injection Hst as <-.
  destruct (statistics_of_bounds now (ledger_entries d)) as (_ & _ & H0 & H100).
  by apply progress_bar_length.
Qed.

Lemma progress_bar_of_recalculated_witness :
  length (ReportBody.progress_bar
            (compliance_percentage
               (statistics_of "2025-08-21T10:00:00" (ledger_entries example_ledger))))
  = 20.
Proof.
  apply (progress_bar_of_recalculated "2025-08-21T10:00:00" example_ledger
           (<["statistics" := VStatistics
                (statistics_of "2025-08-21T10:00:00" (ledger_entries example_ledger))]>
              example_ledger)).
  - vm_compute. reflexivity.
  - apply lookup_insert_eq.
Defined.



(** ** The priorities and recent-activity sections of the report *)

(** X9. The list of top unimplemented requirements has at most 20 items;
    each one is the id read off a [status.] key whose table has level 0 or
    no level at all; and when at most 20 requirements qualify, every
    requirement at level 0 is listed. *)
Theorem top_unimplemented_sound (d : StatusData) :
  (length (ReportBody.top_unimplemented d) ≤ 20)%nat ∧
  (∀ r, r ∈ ReportBody.top_unimplemented d →
     ∃ key v, d !! key = Some v ∧ Py.startswith key "status." = true ∧
              r = ReportBody.req_id_of_key key ∧
              match v with VEntry e => level e = 0%Z | _ => True end) ∧
  ((length (ReportBody.unimplemented d) ≤ 20)%nat →
   ∀ key e, d !! key = Some (VEntry e) → Py.startswith key "status." = true →
            level e = 0%Z →
            ReportBody.req_id_of_key key ∈ ReportBody.top_unimplemented d).
Proof.
  unfold ReportBody.top_unimplemented. split; [|split].
  - rewrite length_take. lia.
  - intros r Hr. apply elem_of_take in Hr as (i & Hr & _).
    apply list_elem_of_lookup_2 in Hr.
    unfold ReportBody.unimplemented in Hr.
    apply list_elem_of_omap in Hr as ([key v] & Hin & Hsome).
    apply elem_of_map_to_list in Hin.
    destruct (Py.startswith key "status.") eqn:Hk; [|done].
    exists key, v. split; [done|]. split; [done|].
    destruct v as [?|e|?]; simpl in Hsome.
    + by simplify_eq.
    + destruct (level e =? 0)%Z eqn:Hl; [|done].
      apply Z.eqb_eq in Hl. by simplify_eq.
    + by simplify_eq.
  - intros Hlen key e Hd Hk Hl. rewrite take_ge by done.
    unfold ReportBody.unimplemented. apply list_elem_of_omap.
    exists (key, VEntry e). split; [by apply elem_of_map_to_list|].
    rewrite Hk, Hl. done.
Qed.

(** The order of strings is transitive. *)
Lemma string_compare_trans (a b c : string) :
  String.compare a b ≠ Gt → String.compare b c ≠ Gt → String.compare a c ≠ Gt.
Proof.
  revert b c. induction a as [|x a IH]; intros [|y b] [|z c]; simpl; try done.
  unfold Ascii.compare.
  destruct (N.compare_spec (N_of_ascii x) (N_of_ascii y)) as [Hxy|Hxy|Hxy];
    destruct (N.compare_spec (N_of_ascii y) (N_of_ascii z)) as [Hyz|Hyz|Hyz];
    destruct (N.compare_spec (N_of_ascii x) (N_of_ascii z)) as [Hxz|Hxz|Hxz];
    try done; try lia.
  apply IH.
Qed.

Lemma string_leb_trans (a b c : string) :
  String.leb a b = true → String.leb b c = true → String.leb a c = true.
Proof.
  unfold String.leb. intros Hab Hbc.
  pose proof (string_compare_trans a b c) as Ht.
  destruct (String.compare a b), (String.compare b c), (String.compare a c);
    try done; exfalso; by apply Ht.
Qed.

(** [Py.sorted] sorts, for an order that is total and transitive. *)
Lemma insert_sorted_sorted {A} (le : A → A → bool) x l :
  (∀ a b, le a b = true ∨ le b a = true) →
  (∀ a b c, le a b = true → le b c = true → le a c = true) →
  StronglySorted (λ a b, le a b = true) l →
  StronglySorted (λ a b, le a b = true) (Py.insert_sorted le x l).
Proof.
  intros Htot Htrans. induction 1 as [|y l Hs IH Hy]; simpl.
  - repeat constructor.
  - destruct (le x y) eqn:Hxy.
    + constructor; [by constructor|]. constructor; [done|].
      eapply Forall_impl; [exact Hy|]. intros z Hz. by eapply Htrans.
    + constructor; [done|].
      rewrite (insert_sorted_perm le x l). constructor; [|done].
      destruct (Htot x y) as [?|?]; [congruence | done].
Qed.

Lemma sorted_sorted {A} (le : A → A → bool) l :
  (∀ a b, le a b = true ∨ le b a = true) →
  (∀ a b c, le a b = true → le b c = true → le a c = true) →
  StronglySorted (λ a b, le a b = true) (Py.sorted le l).
Proof.
  intros Htot Htrans. unfold Py.sorted.
  induction l as [|x l IH]; simpl; [constructor|].
  by apply insert_sorted_sorted.
Qed.

Lemma StronglySorted_take {A} (R : A → A → Prop) n l :
  StronglySorted R l → StronglySorted R (take n l).
Proof.
  intros Hs. revert n. induction Hs as [|x l Hs IH Hx]; intros [|n]; simpl;
    try constructor; [apply IH|].
  apply Forall_forall. intros y Hy. apply (proj1 (Forall_forall _ _) Hx).
  apply elem_of_take in Hy as (i & Hy & _). by eapply list_elem_of_lookup_2.
Qed.

Lemma collect_updates_length (d : StatusData) :
  length (ComplianceReport.collect_updates d) = length (ledger_entries d).
Proof.
  unfold ComplianceReport.collect_updates, ledger_entries.
  induction (map_to_list d) as [|[key v] items IH]; [done|].
  cbn [omap list_omap]. unfold status_entry at 1. cbn [fst snd].
  destruct (Py.startswith key "status."); [|exact IH].
  destruct v; cbn [length]; by rewrite ?IH.
Qed.

(** X10. The recent-activity table has at most 10 rows, in descending
    order of the [last_checked] strings; every row shows the level,
    [last_checked] and notes of an entry of the Ledger; and with at most
    10 entries every entry has its row. *)
Theorem recent_activity_sorted (d : StatusData) :
  (length (ComplianceReport.recent_activity d) ≤ 10)%nat ∧
  StronglySorted
    (λ x y, String.leb (ComplianceReport.upd_last_checked y)
                       (ComplianceReport.upd_last_checked x) = true)
    (ComplianceReport.recent_activity d) ∧
  (∀ u, u ∈ ComplianceReport.recent_activity d →
     ∃ key e, d !! key = Some (VEntry e) ∧ Py.startswith key "status." = true ∧
              ComplianceReport.upd_level u = level e ∧
              ComplianceReport.upd_last_checked u = last_checked e ∧
              ComplianceReport.upd_notes u = notes e) ∧
  ((length (ledger_entries d) ≤ 10)%nat →
   length (ComplianceReport.recent_activity d) = length (ledger_entries d)).
Proof.
  unfold ComplianceReport.recent_activity, ComplianceReport.sort_updates.
  split; [|split; [|split]].
  - rewrite length_take. lia.
  - apply StronglySorted_take.
    apply (sorted_sorted
             (λ x y, String.leb (ComplianceReport.upd_last_checked y)
                                (ComplianceReport.upd_last_checked x))).
    + intros a b. destruct (String.leb_total (ComplianceReport.upd_last_checked a)
                              (ComplianceReport.upd_last_checked b)); eauto.
    + intros a b c Hab Hbc. by eapply string_leb_trans.
  - intros u Hu. apply elem_of_take in Hu as (i & Hu & _).
    apply list_elem_of_lookup_2 in Hu. rewrite sorted_perm in Hu.
    unfold ComplianceReport.collect_updates in Hu.
    apply list_elem_of_omap in Hu as ([key v] & Hin & Hsome).
    apply elem_of_map_to_list in Hin.
    destruct (Py.startswith key "status.") eqn:Hk; [|done].
    destruct v as [?|e|?]; try done.
    exists key, e. by simplify_eq.
  - intros Hlen.
    pose proof (collect_updates_length d) as Hsame.
    rewrite take_ge; rewrite (Permutation_length (sorted_perm _ _)); lia.
Qed.

(** ** Keys and requirement ids in the report *)





(** An id that ends with [status.] is not recovered. *)
Example req_id_of_initial_key_lost :
  ReportBody.req_id_of_key (CreateInitialStatus.status_key "xstatus.") = "x".
Proof. reflexivity. Qed.

(** ** Further properties of the initialisation *)



Lemma initial_loop_remove_dups (d0 : StatusData) ids :
  foldl (λ (d : StatusData) req_id,
           <[CreateInitialStatus.status_key req_id :=
               VEntry CreateInitialStatus.initial_entry]> d) d0 ids
  = foldl (λ (d : StatusData) req_id,
             <[CreateInitialStatus.status_key req_id :=
                 VEntry CreateInitialStatus.initial_entry]> d) d0 (remove_dups ids).
Proof.
  apply map_eq. intros k. rewrite !initial_loop_lookup.
  destruct (decide (k ∈ CreateInitialStatus.status_key <$> ids)) as [Hin|Hin].
  - rewrite decide_True; [done|].
    apply list_elem_of_fmap in Hin as (id & -> & Hid).
    apply list_elem_of_fmap_2. by apply elem_of_remove_dups.
  - rewrite decide_False; [done|].
    intros (id & -> & Hid)%list_elem_of_fmap. apply Hin.
    apply list_elem_of_fmap_2. exact (proj1 (elem_of_remove_dups ids id) Hid).
Qed.

(** The entries of an initialised Ledger: one level-0 entry for each
    distinct id. *)
Lemma create_initial_status_entries now1 now2 matrix ids (d : StatusData) :
  CreateInitialStatus.create_initial_status now1 now2 matrix ids = Return d →
  ledger_entries d ≡ₚ replicate (length (remove_dups ids)) CreateInitialStatus.initial_entry.
Proof.
  unfold CreateInitialStatus.create_initial_status.
  destruct (CreateInitialStatus.matrix_get "metadata" matrix) as [[version total| |]|];
    try discriminate.
  intros [= <-]. rewrite ledger_entries_insert_other by done.
  rewrite initial_loop_remove_dups, initial_loop_entries.
  - unfold ledger_entries at 1. rewrite map_to_list_singleton. simpl.
    by rewrite app_nil_r.
  - apply NoDup_remove_dups.
  - intros id _. apply lookup_singleton_ne. symmetry. apply initial_key_not_metadata.
Qed.

Lemma remove_dups_length {A} `{EqDecision A} (l : list A) :
  (length (remove_dups l) ≤ length l)%nat ∧
  (length (remove_dups l) = length l ↔ NoDup l).
Proof.
  induction l as [|x l [IHle IHeq]]; simpl.
  - split; [done|]. split; [constructor | done].
  - destruct (decide_rel elem_of x l) as [Hin|Hin]; simpl.
    + split; [lia|]. split; [lia|]. intros Hnd. by apply NoDup_cons in Hnd as [? _].
    + split; [lia|]. split.
      * intros Hlen. apply NoDup_cons. split; [done|]. apply IHeq. lia.
      * intros [_ Hnd]%NoDup_cons. f_equal. by apply IHeq.
Qed.

Lemma count_at_replicate_initial l n :
  count_at l (replicate n CreateInitialStatus.initial_entry)
  = if decide (l = 0%Z) then n else 0.
Proof.
  induction n as [|n IH]; [by case_decide|].
  cbn [replicate]. rewrite count_at_cons, IH. simpl.
  destruct (decide (0%Z = l)), (decide (l = 0%Z)); congruence || lia.
Qed.

Lemma remove_dups_length_perm {A} `{EqDecision A} (l l' : list A) :
  l ≡ₚ l' → length (remove_dups l) = length (remove_dups l').
Proof.
  intros Hp. apply Permutation_length.
  apply NoDup_Permutation; [apply NoDup_remove_dups..|].
  intros x. rewrite !elem_of_remove_dups. by rewrite Hp.
Qed.

Lemma round_zero (x : Q) (n : nat) : (x == 0)%Q → (Py.round x n == 0)%Q.
Proof.
  intros Hx.
  destruct (round_bounds x n 0 0) as [H0 H1].
  - rewrite Hx. done.
  - rewrite Hx. done.
  - change (inject_Z 0) with 0%Q in H0, H1. by apply Qle_antisym.
Qed.

(** The statistics block of the initialiser, for [n] entries all at
    level 0. *)
Lemma initial_statistics_consistent n now :
  statistics_consistent
    {| level_0_count := n; level_1_count := 0; level_2_count := 0;
       level_3_count := 0; level_4_count := 0; average_level := 0%Q;
       compliance_percentage := 0%Q; last_calculated := now |}
    (replicate n CreateInitialStatus.initial_entry).
Proof.
  assert (Hz : (exact_average
                  {| level_0_count := n; level_1_count := 0; level_2_count := 0;
                     level_3_count := 0; level_4_count := 0; average_level := 0%Q;
                     compliance_percentage := 0%Q; last_calculated := now |} == 0)%Q).
  { unfold exact_average, counted, weighted_levels. simpl.
    destruct (n + 0 + 0 + 0 + 0); [done|]. unfold Qdiv. by rewrite Qmult_0_l. }
  unfold statistics_consistent. rewrite !count_at_replicate_initial.
  cbn [level_0_count level_1_count level_2_count level_3_count level_4_count
       average_level compliance_percentage].
  split; [done|]. split; [done|]. split; [done|]. split; [done|]. split; [done|].
  split; [|split; [|split]].
  - unfold counted. simpl. rewrite length_replicate. lia.
  - rewrite Hz. done.
  - rewrite (round_zero _ 2); [done|]. rewrite Hz. done.
  - apply Forall_forall. intros e He. by apply elem_of_replicate in He as [-> _].
Qed.

(** X13. The statistics the initialiser writes agree with the entries it
    creates exactly when no requirement id occurs twice in the matrix:
    the level-0 count is the number of ids with repetitions, the number of
    entries is the number of distinct ids.  Without repetitions the
    initial statistics satisfy the invariant the updater maintains. *)
Theorem initial_statistics_consistent_iff now1 now2 matrix (d : StatusData) st :
  CreateInitialStatus.initialize now1 now2 matrix = Return d →
  d !! "statistics" = Some (VStatistics st) →
  level_0_count st = length (CreateInitialStatus.collect_ids matrix) ∧
  length (ledger_entries d) = length (remove_dups (CreateInitialStatus.collect_ids matrix)) ∧
  (counted st = length (ledger_entries d) ↔ NoDup (CreateInitialStatus.collect_ids matrix)) ∧
  (NoDup (CreateInitialStatus.collect_ids matrix) →
   statistics_consistent st (ledger_entries d)).
Proof.
  intros Hinit Hst. unfold CreateInitialStatus.initialize in Hinit.
  pose proof (extract_all_requirement_ids_perm matrix) as Hp.
  pose proof (create_initial_status_entries _ _ _ _ _ Hinit) as Hes.
  rewrite (remove_dups_length_perm _ _ Hp) in Hes.
  assert (Hstat : st = {| level_0_count := length (CreateInitialStatus.collect_ids matrix);
                          level_1_count := 0; level_2_count := 0; level_3_count := 0;
                          level_4_count := 0; average_level := 0%Q;
                          compliance_percentage := 0%Q; last_calculated := now2 |}).
  { unfold CreateInitialStatus.create_initial_status in Hinit.
    destruct (CreateInitialStatus.matrix_get "metadata" matrix) as [[version total| |]|];
      try discriminate.
    injection Hinit as <-. rewrite lookup_insert_eq in Hst. injection Hst as <-.
    by rewrite (Permutation_length Hp). }
  destruct (remove_dups_length (CreateInitialStatus.collect_ids matrix)) as [Hle Hiff].
  assert (Hlen : length (ledger_entries d)
                 = length (remove_dups (CreateInitialStatus.collect_ids matrix))).
  { by rewrite Hes, length_replicate. }
  split; [by rewrite Hstat|]. split; [done|]. split.
  - rewrite Hlen, <- Hiff, Hstat. unfold counted. simpl. lia.
  - intros Hnd. apply Hiff in Hnd. rewrite Hnd in Hes.
    eapply statistics_consistent_perm; [symmetry; exact Hes|].
    rewrite Hstat. apply initial_statistics_consistent.
Qed.

Lemma initial_statistics_consistent_iff_witness :
  ∃ (d : StatusData) st,
    CreateInitialStatus.initialize "2025-08-20T08:00:00" "2025-08-20T08:00:01"
      duplicate_matrix = Return d ∧
    d !! "statistics" = Some (VStatistics st) ∧
    level_0_count st = 2 ∧ length (ledger_entries d) = 1 ∧
    ¬ NoDup (CreateInitialStatus.collect_ids duplicate_matrix) ∧
    counted st ≠ length (ledger_entries d).
Proof.
  eexists _, _. split; [reflexivity|]. split; [by vm_compute|].
  destruct (initial_statistics_consistent_iff
              "2025-08-20T08:00:00" "2025-08-20T08:00:01" duplicate_matrix _ _
              eq_refl ltac:(by vm_compute)) as (H0 & Hlen & Hiff & _).
  assert (Hdup : ¬ NoDup (CreateInitialStatus.collect_ids duplicate_matrix)).
  { intros Hnd. apply NoDup_cons in Hnd as [Hnin _]. apply Hnin. by left. }
  split; [exact H0|]. split; [exact Hlen|]. split; [exact Hdup|].
  intros Hc. by apply Hdup, Hiff.
Defined.

Lemma lower_is_y (response : string) :
  String.eqb (CreateInitialStatusMain.lower response) "y" = true
  ↔ response = "y" ∨ response = "Y".
Proof.
  rewrite String.eqb_eq. split.
  - destruct response as [|c [|c' s]]; simpl; try done.
    intros [= Hc]. revert Hc.
    destruct c as [[] [] [] [] [] [] [] []]; vm_compute; intros; try discriminate; eauto.
  - by intros [-> | ->].
Qed.

(** X14. [main] of the initialiser never changes the matrix file, and it
    replaces the status file only when the matrix file exists, the status
    file did not exist or the user answered [y] or [Y], and the
    initialisation succeeded; the new content is then the initialised
    Ledger.  In every other case the status file is left as it was. *)
Theorem create_main_overwrites_only_on_yes response now1 now2 w :
  CreateInitialStatusMain.MATRIX_FILE
    (CreateInitialStatusMain.main response now1 now2 w).2
    = CreateInitialStatusMain.MATRIX_FILE w ∧
  (CreateInitialStatusMain.STATUS_FILE
     (CreateInitialStatusMain.main response now1 now2 w).2
     = CreateInitialStatusMain.STATUS_FILE w
   ∨ ∃ matrix (d : StatusData),
       CreateInitialStatusMain.MATRIX_FILE w = Some matrix ∧
       (CreateInitialStatusMain.STATUS_FILE w = None
        ∨ response = "y" ∨ response = "Y") ∧
       CreateInitialStatus.initialize now1 now2 matrix = Return d ∧
       (CreateInitialStatusMain.main response now1 now2 w).1 = Return tt ∧
       CreateInitialStatusMain.STATUS_FILE
         (CreateInitialStatusMain.main response now1 now2 w).2 = Some d).
Proof.
  unfold CreateInitialStatusMain.main.
  destruct (CreateInitialStatusMain.MATRIX_FILE w) as [matrix|] eqn:Hm; [|by split; [|left]].
  assert (Hask : (match CreateInitialStatusMain.STATUS_FILE w with
                  | Some _ => negb (String.eqb (CreateInitialStatusMain.lower response) "y")
                  | None => false
                  end = false) →
                 CreateInitialStatusMain.STATUS_FILE w = None
                 ∨ response = "y" ∨ response = "Y").
  { destruct (CreateInitialStatusMain.STATUS_FILE w); [|by left].
    intros Hy%negb_false_iff. right. by apply lower_is_y. }
  destruct (match CreateInitialStatusMain.STATUS_FILE w with
            | Some _ => _ | None => _ end) eqn:Hq; [by split; [|left]|].
  unfold CreateInitialStatusMain.load_compliance_matrix.
  destruct (CreateInitialStatus.matrix_get "metadata" matrix) as [[version total| |]|]
    eqn:Hmeta; try (by split; [|left]).
  destruct (CreateInitialStatus.create_initial_status now1 now2 matrix _)
    as [d| |] eqn:Hc; try (by split; [|left]).
  split; [done|]. right. exists matrix, d.
  split; [done|]. split; [by apply Hask|]. done.
Qed.

(** With an existing status file and the answer [n] nothing is written
    and the exit status is 0. *)
Example create_main_cancelled :
  CreateInitialStatusMain.main "n" "2025-08-20T08:00:00" "2025-08-20T08:00:01"
    {| CreateInitialStatusMain.MATRIX_FILE := Some example_matrix;
       CreateInitialStatusMain.STATUS_FILE := Some example_ledger |}
  = (Exit 0, {| CreateInitialStatusMain.MATRIX_FILE := Some example_matrix;
                CreateInitialStatusMain.STATUS_FILE := Some example_ledger |}).
Proof. reflexivity. Qed.

(** ** Further properties of the Evidence Scanner *)

Section AnalyzerProperties.

Variable re_findall_words : string → list string.
Variable lower : string → string.
Variable split_words : string → list string.
Variable source_files : gmap string string.

Local Abbreviation score req :=
  (ComplianceAnalyzer._calculate_evidence_score re_findall_words lower split_words
     source_files req).

Local Abbreviation level_of req :=
  (requirement_level re_findall_words lower split_words source_files req).

Lemma analyze_counters_closed requirements (i p m : nat) :
  foldl (λ (acc : nat * nat * nat) req,
           let '(implemented, partial_count, not_implemented) := acc in
           match ComplianceAnalyzer.classify
                   (ComplianceAnalyzer._calculate_evidence_score re_findall_words lower
                      split_words source_files req) with
           | ComplianceAnalyzer.impl => (S implemented, partial_count, not_implemented)
           | ComplianceAnalyzer.partial => (implemented, S partial_count, not_implemented)
           | ComplianceAnalyzer.missing => (implemented, partial_count, S not_implemented)
           end)
        (i, p, m) requirements
  = (i + length (filter (λ req, level_of req = ComplianceAnalyzer.impl) requirements),
     p + length (filter (λ req, level_of req = ComplianceAnalyzer.partial) requirements),
     m + length (filter (λ req, level_of req = ComplianceAnalyzer.missing) requirements)).
Proof.
  revert i p m. induction requirements as [|req reqs IH]; intros i p m.
  - simpl. by rewrite !Nat.add_0_r.
  - cbn [foldl]. rewrite !filter_cons.
    change (ComplianceAnalyzer.classify (score req)) with (level_of req).
    destruct (level_of req); rewrite IH;
      repeat case_decide; try done; simpl; by rewrite ?Nat.add_succ_r.
Qed.

Lemma level_partition requirements :
  length (filter (λ req, level_of req = ComplianceAnalyzer.impl) requirements)
  + length (filter (λ req, level_of req = ComplianceAnalyzer.partial) requirements)
  + length (filter (λ req, level_of req = ComplianceAnalyzer.missing) requirements)
  = length requirements.
Proof.
  induction requirements as [|req reqs IH]; [done|].
  rewrite !filter_cons. destruct (level_of req); repeat case_decide; try done;
    simpl; lia.
Qed.

(** X15. [analyze_implementation] stops with a division by zero when
    there are no requirements.  Otherwise its counters are the numbers of
    requirements classified implemented, partial and missing, and they add
    up to the total. *)
Theorem analyze_implementation_partition requirements :
  (requirements = [] ↔
   AnalyzerResults.analyze_implementation re_findall_words lower split_words
     source_files requirements = AnalyzerResults.ZeroDivisionError) ∧
  ∀ r, AnalyzerResults.analyze_implementation re_findall_words lower split_words
         source_files requirements = AnalyzerResults.Ok r →
       AnalyzerResults.total r = length requirements ∧
       AnalyzerResults.implemented r
         = length (filter (λ req, level_of req = ComplianceAnalyzer.impl) requirements) ∧
       AnalyzerResults.partial r
         = length (filter (λ req, level_of req = ComplianceAnalyzer.partial) requirements) ∧
       AnalyzerResults.not_implemented r
         = length (filter (λ req, level_of req = ComplianceAnalyzer.missing) requirements) ∧
       AnalyzerResults.implemented r + AnalyzerResults.partial r
         + AnalyzerResults.not_implemented r = AnalyzerResults.total r.
Proof.
  unfold AnalyzerResults.analyze_implementation, ComplianceAnalyzer.analyze_implementation.
  rewrite analyze_counters_closed. simpl. split.
  - split; [by intros -> | by destruct requirements].
  - intros r Hr. destruct requirements as [|req reqs]; [done|].
    injection Hr as <-. simpl. repeat split. apply (level_partition (req :: reqs)).
Qed.

Lemma spec_score_bound cap keywords file_contents :
  (spec_score cap keywords file_contents
   ≤ cap * (length keywords * length file_contents))%nat.
Proof.
  unfold spec_score.
  assert (Hk : ∀ k, (sum_list (file_content ← file_contents;
                               [Nat.min (Py.count file_content k) cap])
                     ≤ cap * length file_contents)%nat).
  { intros k. induction file_contents as [|f fs IHf]; [simpl; lia|].
    rewrite bind_cons, sum_list_append.
    assert (Hf : (sum_list [Nat.min (Py.count f k) cap] ≤ cap)%nat) by (simpl; lia).
    cbn [length]. rewrite Nat.mul_succ_r. lia. }
  induction keywords as [|k ks IH]; [simpl; lia|].
  rewrite bind_cons, sum_list_append. specialize (Hk k).
  cbn [length]. rewrite Nat.mul_succ_l, Nat.mul_add_distr_l. lia.
Qed.

(** X16. The evidence score of a requirement is at most 5 times the
    number of its keywords times the number of source files.  So with
    fewer than 4 keyword-and-file pairs a requirement is never classified
    implemented, and with fewer than 2 it is always classified missing. *)
Theorem evidence_score_bound (req : ComplianceAnalyzer.Requirement) :
  let pairs :=
    (length (ComplianceAnalyzer.effective_keywords re_findall_words lower split_words req)
     * size source_files)%nat in
  (score req ≤ 5 * pairs)%nat ∧
  ((pairs < 4)%nat → level_of req ≠ ComplianceAnalyzer.impl) ∧
  ((pairs < 2)%nat → level_of req = ComplianceAnalyzer.missing).
Proof.
  intros pairs.
  assert (Hb : (score req ≤ 5 * pairs)%nat).
  { unfold ComplianceAnalyzer._calculate_evidence_score.
    rewrite scan_sum. simpl.
    pose proof (spec_score_bound 5
                  (ComplianceAnalyzer.effective_keywords re_findall_words lower
                     split_words req)
                  (map snd (map_to_list source_files))) as Hs.
    rewrite length_map, length_map_to_list in Hs. exact Hs. }
  split; [done|]. unfold requirement_level, ComplianceAnalyzer.classify. split.
  - intros Hp. destruct (20 <=? score req)%nat eqn:H20; [|by destruct (8 <=? _)%nat].
    apply Nat.leb_le in H20. lia.
  - intros Hp. destruct (20 <=? score req)%nat eqn:H20; [apply Nat.leb_le in H20; lia|].
    destruct (8 <=? score req)%nat eqn:H8; [apply Nat.leb_le in H8; lia | done].
Qed.



End AnalyzerProperties.

(** ** Section prefix of a requirement id *)

Lemma split_head (sep : ascii) (s : string) :
  ∃ part parts,
    AnalyzerResults.split sep s = part :: parts ∧
    Py.contains (String sep EmptyString) part = false ∧
    ((parts = [] ∧ s = part) ∨ ∃ rest, s = part ++ String sep rest).
Proof.
  induction s as [|c s IH].
  - exists EmptyString, []. repeat split. by left.
  - cbn [AnalyzerResults.split]. destruct (Ascii.eqb c sep) eqn:E.
    + apply Ascii.eqb_eq in E as ->.
      exists EmptyString, (AnalyzerResults.split sep s). repeat split.
      right. by exists s.
    + destruct IH as (part & parts & -> & Hc & Hs).
      exists (String c part), parts. split; [done|]. split.
      * cbn [Py.contains String.prefix].
        destruct (ascii_dec sep c) as [->|_]; [by rewrite Ascii.eqb_refl in E|].
        exact Hc.
      * destruct Hs as [[-> ->]|[rest ->]]; [by left | right; by exists rest].
Qed.

(** X18. [_get_section_prefix] returns the part of the requirement id
    before its first dot: the result has no dot, and the id is either the
    result itself or the result followed by a dot and a rest.  [split]
    never returns an empty list, so the default [Unknown] is never taken;
    for the empty id the result is the empty string. *)
Theorem get_section_prefix_first_part (req_id : string) :
  AnalyzerResults.split "." req_id ≠ [] ∧
  Py.contains "." (AnalyzerResults._get_section_prefix req_id) = false ∧
  (req_id = AnalyzerResults._get_section_prefix req_id
   ∨ ∃ rest, req_id = AnalyzerResults._get_section_prefix req_id ++ "." ++ rest).
Proof.
  unfold AnalyzerResults._get_section_prefix.
  destruct (split_head "." req_id) as (part & parts & -> & Hc & Hs).
  split; [done|]. split; [exact Hc|].
  destruct Hs as [[_ ->]|[rest ->]]; [by left | right; by exists rest].
Qed.
